(** * Shallow embedding of the pybind11 binding shims of futures_quant_framework

    Sources embedded:
    - src/extern_libs/ctp_pybind/ctp_pybind.cpp      (CTP market-data API)
    - src/extern_libs/nsq_pybind/nsq_pybind.cpp      (NSQ market-data API)
    - src/extern_libs/exanic_pybind/exanic_pybind.cpp (ExaNIC receive API)

    Conventions.
    - A C++ [std::string] is a Rocq [string] (one [ascii] per byte; it may
      contain NUL bytes, as a Python str converted by pybind11 can).
    - A fixed-size C [char] array is a [list ascii] whose length is its
      [sizeof].
    - A [const char*] handed to a vendor function is modelled by the
      [std::string] whose buffer it points to.
    - Reading memory past the end of an object (undefined behaviour in C++)
      is modelled by [None].
    - A C [double] is modelled by its IEEE-754 binary64 encoding ([Z]); the
      bindings only copy doubles, they never compute with them. *)

From Stdlib Require Import String Ascii List ZArith Lia Bool.
Import ListNotations.

Open Scope string_scope.
Open Scope list_scope.

Definition double := Z.

(** ** C strings *)

Definition NUL : ascii := Ascii.zero.

(** The buffer behind [std::string::c_str()]: the bytes followed by NUL. *)
Definition c_str (s : string) : list ascii := list_ascii_of_string s ++ [NUL].

(** The bytes before the first NUL (all of them when there is none). *)
Fixpoint prefix_nul (l : list ascii) : list ascii :=
  match l with
  | [] => []
  | c :: l' => if (c =? NUL)%char then [] else c :: prefix_nul l'
  end.

(** What a C function reading [s.c_str()] sees of [s]. *)
Definition cut_nul (s : string) : string :=
  string_of_list_ascii (prefix_nul (list_ascii_of_string s)).

(** [std::string(f.X)] for a char array [f.X]: the bytes up to the first
    NUL; when the array holds no NUL the constructor reads past the end of
    the array ([None]). *)
Fixpoint string_of_cchars (a : list ascii) : option string :=
  match a with
  | [] => None
  | c :: a' =>
      if (c =? NUL)%char then Some EmptyString
      else option_map (String c) (string_of_cchars a')
  end.

(** The [n] bytes [strncpy] writes: the source up to its NUL, then NUL
    padding up to [n] bytes. *)
Fixpoint strncpy_n (src : list ascii) (n : nat) {struct n} : list ascii :=
  match n with
  | O => []
  | S n' =>
      match src with
      | c :: src' => if (c =? NUL)%char then repeat NUL n else c :: strncpy_n src' n'
      | [] => repeat NUL n
      end
  end.

(** [strncpy(dest, src, n)] with [n <= sizeof(dest)]. *)
Definition strncpy (dest src : list ascii) (n : nat) : list ascii :=
  strncpy_n src n ++ skipn n dest.

(** [memset(dest, 0, n)]. *)
Definition memset0 (dest : list ascii) (n : nat) : list ascii :=
  repeat NUL n ++ skipn n dest.

(** nsq_pybind.cpp:40-43 [copy_cstr].  [dest_size] is the [sizeof] of a
    C array, so it is at least 1 and [dest_size - 1] does not wrap. *)
Definition copy_cstr (dest : list ascii) (dest_size : nat) (src : string) : list ascii :=
  let dest := memset0 dest dest_size in
  strncpy dest (c_str src) (dest_size - 1).

(** ** CTP request record and its read-write properties
    (ctp_pybind.cpp:110-120).  Fields not touched by the binding are left
    out. *)
Module CThostFtdcReqUserLoginField.
Record t := mk {
  TradingDay : list ascii;
  BrokerID : list ascii;
  UserID : list ascii;
  Password : list ascii
}.

Definition get_BrokerID (f : t) : option string := string_of_cchars (BrokerID f).
Definition get_UserID (f : t) : option string := string_of_cchars (UserID f).
Definition get_Password (f : t) : option string := string_of_cchars (Password f).

(** [strncpy(f.X, v.c_str(), sizeof(f.X))] *)
Definition set_BrokerID (f : t) (v : string) : t :=
  mk (TradingDay f) (strncpy (BrokerID f) (c_str v) (length (BrokerID f)))
     (UserID f) (Password f).
Definition set_UserID (f : t) (v : string) : t :=
  mk (TradingDay f) (BrokerID f)
     (strncpy (UserID f) (c_str v) (length (UserID f))) (Password f).
Definition set_Password (f : t) (v : string) : t :=
  mk (TradingDay f) (BrokerID f) (UserID f)
     (strncpy (Password f) (c_str v) (length (Password f))).

(** [py::init<>()] value-initialises the struct: every byte is zero.
    The array sizes are those of ThostFtdcUserApiDataType.h. *)
Definition init : t :=
  mk (repeat NUL 9) (repeat NUL 11) (repeat NUL 16) (repeat NUL 41).
End CThostFtdcReqUserLoginField.

(** ** NSQ request record and its read-write properties
    (nsq_pybind.cpp:122-129). *)
Module CHSNsqReqUserLoginField.
Record t := mk {
  AccountID : list ascii;
  Password : list ascii
}.

Definition get_AccountID (f : t) : option string := string_of_cchars (AccountID f).
Definition get_Password (f : t) : option string := string_of_cchars (Password f).

(** [copy_cstr(f.X, sizeof(f.X), v)] *)
Definition set_AccountID (f : t) (v : string) : t :=
  mk (copy_cstr (AccountID f) (length (AccountID f)) v) (Password f).
Definition set_Password (f : t) (v : string) : t :=
  mk (AccountID f) (copy_cstr (Password f) (length (Password f)) v).
End CHSNsqReqUserLoginField.

(** ** Vendor calls as a trace

    A session object ([PyMdApi], [PyNsqApi]) is a state [S]; every call into
    the vendor library is appended to a trace of calls [C].  The vendor's
    answers are given by oracles that see the trace so far, so the vendor may
    be stateful. *)
Section TraceMonad.
Context {S C : Type}.

Definition M (A : Type) := S * list C -> A * (S * list C).

Definition ret {A} (a : A) : M A := fun st => (a, st).

Definition bind {A B} (m : M A) (k : A -> M B) : M B :=
  fun st => let (a, st') := m st in k a st'.

Definition get_self : M S := fun st => (fst st, st).

Definition put_self (s : S) : M unit := fun st => (tt, (s, snd st)).

(** call a vendor function; [answer] is its return value *)
Definition vcall {A} (answer : list C -> C -> A) (c : C) : M A :=
  fun st => (answer (snd st) c, (fst st, snd st ++ [c])).
End TraceMonad.

Notation "x <- m ;; k" := (bind m (fun x => k))
  (at level 61, m at next level, right associativity).
Notation "m ;;; k" := (bind m (fun _ => k))
  (at level 61, right associativity).

(** A C++ [size_t] converted to [int] (two's complement, 32 bits). *)
Definition int_of_size (n : nat) : Z :=
  let z := (Z.of_nat n mod 2 ^ 32)%Z in
  if (z <? 2 ^ 31)%Z then z else (z - 2 ^ 32)%Z.

(** A non-null C pointer. *)
Definition ptr := positive.

(** ** ctp_pybind.cpp: [PyMdApi] *)
Module Ctp.
(** The vendor functions of [CThostFtdcMdApi] the binding calls. *)
Inductive call :=
| CreateFtdcMdApi (pszFlowPath : string)
| Release (api : ptr)
| RegisterSpi (api : ptr) (pSpi : option ptr)
| RegisterFront (api : ptr) (pszFrontAddress : string)
| Init (api : ptr)
| Join (api : ptr)
| ReqUserLogin (api : ptr) (pReqUserLoginField : option ptr) (nRequestID : Z)
| SubscribeMarketData (api : ptr) (ppInstrumentID : list string) (nCount : Z)
| GetApiVersion.

(** What the vendor library answers. *)
Record vendor := {
  create : list call -> call -> option ptr;
  answer : list call -> call -> Z;
  version : list call -> call -> string
}.

Record PyMdApi := { api : option ptr }.

Section Methods.
Variable V : vendor.

Definition ctx := @M PyMdApi call.

Definition void_call (c : call) : ctx unit := vcall (fun _ _ => tt) c.

(** [PyMdApi(const std::string &flow_path)] *)
Definition ctor (flow_path : string) : ctx unit :=
  h <- vcall (create V) (CreateFtdcMdApi flow_path) ;;
  put_self {| api := h |}.

(** [~PyMdApi()] *)
Definition dtor : ctx unit :=
  self <- get_self ;;
  match api self with
  | Some a => void_call (Release a) ;;; put_self {| api := None |}
  | None => ret tt
  end.

Definition RegisterSpi_m (spi : option ptr) : ctx unit :=
  self <- get_self ;;
  match api self with
  | Some a => void_call (RegisterSpi a spi)
  | None => ret tt
  end.

Definition RegisterFront_m (pszFrontAddress : string) : ctx unit :=
  self <- get_self ;;
  match api self with
  | Some a => void_call (RegisterFront a pszFrontAddress)
  | None => ret tt
  end.

Definition Init_m : ctx unit :=
  self <- get_self ;;
  match api self with
  | Some a => void_call (Init a)
  | None => ret tt
  end.

Definition Join_m : ctx Z :=
  self <- get_self ;;
  match api self with
  | Some a => vcall (answer V) (Join a)
  | None => ret (-1)%Z
  end.

Definition ReqUserLogin_m (pReqUserLoginField : option ptr) (nRequestID : Z) : ctx Z :=
  self <- get_self ;;
  match api self with
  | Some a => vcall (answer V) (ReqUserLogin a pReqUserLoginField nRequestID)
  | None => ret (-1)%Z
  end.

(** the loop pushing one [s.c_str()] per symbol *)
Fixpoint push_symbols (p_symbols : list string) (symbols : list string) : list string :=
  match symbols with
  | [] => p_symbols
  | s :: rest => push_symbols (p_symbols ++ [s]) rest
  end.

Definition SubscribeMarketData_m (symbols : list string) : ctx Z :=
  self <- get_self ;;
  match api self with
  | None => ret (-1)%Z
  | Some a =>
      let p_symbols := push_symbols [] symbols in
      vcall (answer V) (SubscribeMarketData a p_symbols (int_of_size (length p_symbols)))
  end.

Definition GetApiVersion_m : ctx string :=
  vcall (version V) GetApiVersion.
End Methods.
End Ctp.

(** ** nsq_pybind.cpp: [PyNsqApi] *)
Module Nsq.
(** [CHSNsqReqFutuDepthMarketDataField]; the array sizes are those of the
    vendor header, which is not part of the repository. *)
Module CHSNsqReqFutuDepthMarketDataField.
Record t := mk {
  ExchangeID : list ascii;
  InstrumentID : list ascii
}.
End CHSNsqReqFutuDepthMarketDataField.
Definition Req := CHSNsqReqFutuDepthMarketDataField.t.

Inductive call :=
| NewNsqApi (pszFlowPath : string)
| NewNsqApiExt (pszFlowPath pszSdkCfgFilePath : string)
| ReleaseApi (api : ptr)
| RegisterSpi (api : ptr) (pSpi : option ptr)
| RegisterFront (api : ptr) (pszFrontAddress : string)
| Init (api : ptr) (pszLicFile pszSafeLevel pszPwd pszSslFile pszSslPwd : string)
| ReqUserLogin (api : ptr) (pReqUserLoginField : option ptr) (nRequestID : Z)
| GetApiErrorMsg (api : ptr) (nErrorCode : Z)
| GetNsqApiVersion
| ReqFutuDepthMarketDataSubscribe (api : ptr) (pReqFutuDepthMarketData : list Req)
    (nCount : Z) (nRequestID : Z).

Record vendor := {
  create : list call -> call -> option ptr;
  answer : list call -> call -> Z;
  message : list call -> call -> option string;
  version : list call -> call -> string
}.

Record PyNsqApi := { api_ : option ptr }.

Section Methods.
Variable V : vendor.
(** [sizeof] of the two arrays of [CHSNsqReqFutuDepthMarketDataField] *)
Variables ExchangeID_size InstrumentID_size : nat.

Definition ctx := @M PyNsqApi call.

Definition void_call (c : call) : ctx unit := vcall (fun _ _ => tt) c.

(** [PyNsqApi(flow_path, sdk_cfg_file_path)] *)
Definition ctor (flow_path sdk_cfg_file_path : string) : ctx unit :=
  h <- (if String.eqb sdk_cfg_file_path EmptyString
        then vcall (create V) (NewNsqApi flow_path)
        else vcall (create V) (NewNsqApiExt flow_path sdk_cfg_file_path)) ;;
  put_self {| api_ := h |}.

(** [~PyNsqApi()] *)
Definition dtor : ctx unit :=
  self <- get_self ;;
  match api_ self with
  | Some a => void_call (ReleaseApi a) ;;; put_self {| api_ := None |}
  | None => ret tt
  end.

Definition RegisterSpi_m (spi : option ptr) : ctx unit :=
  self <- get_self ;;
  match api_ self with
  | Some a => void_call (RegisterSpi a spi)
  | None => ret tt
  end.

Definition RegisterFront_m (front : string) : ctx Z :=
  self <- get_self ;;
  match api_ self with
  | Some a => vcall (answer V) (RegisterFront a front)
  | None => ret (-1)%Z
  end.

Definition Init_m (lic_file safe_level pwd ssl_file ssl_pwd : string) : ctx Z :=
  self <- get_self ;;
  match api_ self with
  | Some a => vcall (answer V) (Init a lic_file safe_level pwd ssl_file ssl_pwd)
  | None => ret (-1)%Z
  end.

Definition ReqUserLogin_m (req : option ptr) (request_id : Z) : ctx Z :=
  self <- get_self ;;
  match api_ self with
  | Some a => vcall (answer V) (ReqUserLogin a req request_id)
  | None => ret (-1)%Z
  end.

Definition GetApiErrorMsg_m (err : Z) : ctx string :=
  self <- get_self ;;
  match api_ self with
  | None => ret EmptyString
  | Some a =>
      msg <- vcall (message V) (GetApiErrorMsg a err) ;;
      ret (match msg with Some m => m | None => EmptyString end)
  end.

Definition GetApiVersion_m : ctx string :=
  vcall (version V) GetNsqApiVersion.

(** a value-initialised request record *)
Definition req0 : Req :=
  CHSNsqReqFutuDepthMarketDataField.mk
    (repeat NUL ExchangeID_size) (repeat NUL InstrumentID_size).

(** the loop [for i: copy_cstr(reqs[i].ExchangeID, ..., contracts[i].first);
    copy_cstr(reqs[i].InstrumentID, ..., contracts[i].second)] *)
Fixpoint fill_reqs (reqs : list Req) (contracts : list (string * string)) : list Req :=
  match reqs, contracts with
  | r :: reqs', (ex, inst) :: contracts' =>
      CHSNsqReqFutuDepthMarketDataField.mk
        (copy_cstr (CHSNsqReqFutuDepthMarketDataField.ExchangeID r)
           (length (CHSNsqReqFutuDepthMarketDataField.ExchangeID r)) ex)
        (copy_cstr (CHSNsqReqFutuDepthMarketDataField.InstrumentID r)
           (length (CHSNsqReqFutuDepthMarketDataField.InstrumentID r)) inst)
      :: fill_reqs reqs' contracts'
  | _, _ => reqs
  end.

Definition ReqFutuDepthMarketDataSubscribe_m
    (contracts : list (string * string)) (request_id : Z) : ctx Z :=
  self <- get_self ;;
  match api_ self with
  | None => ret (-1)%Z
  | Some a =>
      let reqs := repeat req0 (length contracts) in
      let reqs := fill_reqs reqs contracts in
      vcall (answer V)
        (ReqFutuDepthMarketDataSubscribe a reqs (int_of_size (length reqs)) request_id)
  end.

(** [SubscribeMarket]: one record, count 0 (the whole exchange) *)
Definition SubscribeMarket_m (exchange_id : string) (request_id : Z) : ctx Z :=
  self <- get_self ;;
  match api_ self with
  | None => ret (-1)%Z
  | Some a =>
      let req := CHSNsqReqFutuDepthMarketDataField.mk
                   (copy_cstr (CHSNsqReqFutuDepthMarketDataField.ExchangeID req0)
                      (length (CHSNsqReqFutuDepthMarketDataField.ExchangeID req0)) exchange_id)
                   (CHSNsqReqFutuDepthMarketDataField.InstrumentID req0) in
      vcall (answer V) (ReqFutuDepthMarketDataSubscribe a [req] 0 request_id)
  end.
End Methods.
End Nsq.

(** ** exanic_pybind.cpp

    The Python side is modelled as far as the bindings use it: a heap of
    capsule objects (shared, mutable), CPython's error indicator, and the
    capsule functions of CPython's Objects/capsule.c.  The C++ exceptions
    the lambdas throw are translated by pybind11 ([std::runtime_error] to
    RuntimeError, [std::length_error] to ValueError). *)
Module Exanic.
Record capsule := { cap_pointer : option ptr; cap_name : option string }.

(** a Python object passed to a binding *)
Inductive pyobj :=
| PyCapsuleObj (id : nat)
| PyNoneObj
| PyOtherObj (id : nat).

Inductive pyexc :=
| ValueError (msg : string)
| RuntimeError (msg : string)
| MemoryError
| SystemError.

(** vendor functions of exanic.h / fifo_rx.h *)
Inductive call :=
| exanic_acquire_handle (device_name : string)
| exanic_acquire_rx_buffer (exanic : option ptr) (port_number buffer_number : Z)
| exanic_receive_frame (rx : option ptr) (size : N)
| exanic_release_rx_buffer (rx : option ptr)
| exanic_release_handle (exanic : option ptr)
| exanic_get_last_error.

(** what the bindings call but the repository does not define: the
    vendor functions, and the C++ allocator ([operator new]) *)
Record vendor := {
  v_acquire : list call -> call -> option ptr;
  (** [exanic_receive_frame]: the returned length and the frame bytes it
      copies into the buffer *)
  v_receive : list call -> call -> Z * list ascii;
  v_last_error : list call -> call -> option string;
  (** whether an allocation of so many bytes succeeds *)
  v_alloc : list call -> N -> bool
}.

Record world := {
  heap : nat -> option capsule;
  next_id : nat;
  py_err : option pyexc;
  trace : list call
}.

Inductive outcome (A : Type) :=
| Ok (a : A)
| Raise (e : pyexc)
| Undefined.
Arguments Ok {A} a.
Arguments Raise {A} e.
Arguments Undefined {A}.

Definition EM (A : Type) := world -> outcome A * world.

Definition eret {A} (a : A) : EM A := fun w => (Ok a, w).
Definition throw {A} (e : pyexc) : EM A := fun w => (Raise e, w).
Definition ebind {A B} (m : EM A) (k : A -> EM B) : EM B :=
  fun w =>
    match m w with
    | (Ok a, w') => k a w'
    | (Raise e, w') => (Raise e, w')
    | (Undefined, w') => (Undefined, w')
    end.

Notation "x <-- m ;; k" := (ebind m (fun x => k))
  (at level 61, m at next level, right associativity).

Definition mk_world (h : nat -> option capsule) (n : nat) (e : option pyexc)
  (tr : list call) : world :=
  {| heap := h; next_id := n; py_err := e; trace := tr |}.

Definition set_err (e : pyexc) : EM unit :=
  fun w => (Ok tt, mk_world (heap w) (next_id w) (Some e) (trace w)).

Definition ecall {A} (answer : list call -> call -> A) (x : call) : EM A :=
  fun w => (Ok (answer (trace w) x),
            mk_world (heap w) (next_id w) (py_err w) (trace w ++ [x])).

Definition lookup_capsule (o : pyobj) (w : world) : option capsule :=
  match o with
  | PyCapsuleObj id => heap w id
  | _ => None
  end.

(** capsule.c [name_matches] *)
Definition name_matches (n1 n2 : option string) : bool :=
  match n1, n2 with
  | None, None => true
  | Some a, Some b => String.eqb a b
  | _, _ => false
  end.

(** [PyCapsule_IsValid(o, name)] *)
Definition PyCapsule_IsValid (o : pyobj) (name : string) : EM bool :=
  fun w =>
    (Ok (match lookup_capsule o w with
         | Some c => match cap_pointer c with
                     | Some _ => name_matches (cap_name c) (Some name)
                     | None => false
                     end
         | None => false
         end), w).

(** [PyCapsule_GetPointer(o, name)] *)
Definition PyCapsule_GetPointer (o : pyobj) (name : string) : EM (option ptr) :=
  fun w =>
    match lookup_capsule o w with
    | Some c =>
        match cap_pointer c with
        | Some p =>
            if name_matches (cap_name c) (Some name) then (Ok (Some p), w)
            else (Ok None, snd (set_err (ValueError "PyCapsule_GetPointer called with incorrect name") w))
        | None =>
            (Ok None, snd (set_err (ValueError "PyCapsule_GetPointer called with invalid PyCapsule object") w))
        end
    | None =>
        (Ok None, snd (set_err (ValueError "PyCapsule_GetPointer called with invalid PyCapsule object") w))
    end.
Definition upd_heap (h : nat -> option capsule) (id : nat) (c : capsule) :
    nat -> option capsule :=
  fun id' => if Nat.eqb id' id then Some c else h id'.

(** [PyCapsule_SetPointer(o, pointer)]: a null [pointer] is refused with
    a ValueError and the capsule keeps its pointer. *)
Definition PyCapsule_SetPointer (o : pyobj) (pointer : option ptr) : EM Z :=
  fun w =>
    match pointer with
    | None =>
        (Ok (-1)%Z, snd (set_err (ValueError "PyCapsule_SetPointer called with null pointer") w))
    | Some p =>
        match o with
        | PyCapsuleObj id =>
            match heap w id with
            | Some c =>
                match cap_pointer c with
                | Some _ =>
                    (Ok 0%Z, mk_world (upd_heap (heap w) id
                                         {| cap_pointer := Some p; cap_name := cap_name c |})
                               (next_id w) (py_err w) (trace w))
                | None =>
                    (Ok (-1)%Z, snd (set_err (ValueError "PyCapsule_SetPointer called with invalid PyCapsule object") w))
                end
            | None =>
                (Ok (-1)%Z, snd (set_err (ValueError "PyCapsule_SetPointer called with invalid PyCapsule object") w))
            end
        | _ =>
            (Ok (-1)%Z, snd (set_err (ValueError "PyCapsule_SetPointer called with invalid PyCapsule object") w))
        end
    end.

(** [py::capsule(value, name)]: [PyCapsule_New(value, name, nullptr)];
    a null [value] makes [PyCapsule_New] fail and pybind11 rethrows the
    error. *)
Definition py_capsule (value : option ptr) (name : string) : EM pyobj :=
  fun w =>
    match value with
    | None => (Raise (ValueError "PyCapsule_New called with null pointer"), w)
    | Some p =>
        (Ok (PyCapsuleObj (next_id w)),
         mk_world (upd_heap (heap w) (next_id w)
                     {| cap_pointer := Some p; cap_name := Some name |})
           (S (next_id w)) (py_err w) (trace w))
    end.

(** pybind11's dispatcher returning to CPython: a result returned while
    the error indicator is set becomes a SystemError ("returned a result
    with an exception set"). *)
Definition py_invoke {A} (m : EM A) : EM A :=
  fun w =>
    match m w with
    | (Ok a, w') =>
        match py_err w' with
        | Some _ => (Raise SystemError, mk_world (heap w') (next_id w') None (trace w'))
        | None => (Ok a, w')
        end
    | r => r
    end.

Definition CAPSULE_EXANIC : string := "exanic_t".
Definition CAPSULE_EXANIC_RX : string := "exanic_rx_t".

(** [std::string::max_size()] of 64-bit libstdc++ *)
Definition string_max_size : N := (2 ^ 62 - 1)%N.

(** [std::string buf(n, c)]: above [max_size()] the constructor throws
    [std::length_error], which pybind11 turns into a ValueError; otherwise
    it allocates [n + 1] bytes, and when the allocator refuses it throws
    [std::bad_alloc], which pybind11 turns into a MemoryError. *)
Definition string_fill (alloc : list call -> N -> bool) (n : N) (c : ascii) : EM (list ascii) :=
  if (string_max_size <? n)%N
  then throw (ValueError "basic_string::_M_create")
  else fun w => if alloc (trace w) (n + 1)%N
                then eret (repeat c (N.to_nat n)) w
                else throw MemoryError w.

(** the buffer after [exanic_receive_frame] copied [frame] into it (it
    never writes past the buffer) *)
Definition write_frame (buf frame : list ascii) : list ascii :=
  firstn (length buf) (frame ++ skipn (length frame) buf).

(** [py::bytes(buf.data(), n)]: the readable memory is the buffer and its
    terminating NUL; reading further is undefined. *)
Definition bytes_of_buffer (buf : list ascii) (n : nat) : outcome string :=
  if Nat.leb n (length buf + 1)
  then Ok (string_of_list_ascii (firstn n (buf ++ [NUL])))
  else Undefined.

Section Bindings.
Variable V : vendor.

Definition acquire_handle (device_name : string) : EM pyobj :=
  nic <-- ecall (v_acquire V) (exanic_acquire_handle device_name) ;;
  match nic with
  | None => eret PyNoneObj
  | Some _ => py_capsule nic CAPSULE_EXANIC
  end.

Definition acquire_rx_buffer (handle_cap : pyobj) (port_number buffer_number : Z) : EM pyobj :=
  valid <-- PyCapsule_IsValid handle_cap CAPSULE_EXANIC ;;
  if negb valid then throw (RuntimeError "invalid exanic handle capsule") else
  nic <-- PyCapsule_GetPointer handle_cap CAPSULE_EXANIC ;;
  rx <-- ecall (v_acquire V) (exanic_acquire_rx_buffer nic port_number buffer_number) ;;
  match rx with
  | None => eret PyNoneObj
  | Some _ => py_capsule rx CAPSULE_EXANIC_RX
  end.

Definition receive_frame (rx_cap : pyobj) (max_size : N) : EM string :=
  valid <-- PyCapsule_IsValid rx_cap CAPSULE_EXANIC_RX ;;
  if negb valid then throw (RuntimeError "invalid exanic_rx handle capsule") else
  rx <-- PyCapsule_GetPointer rx_cap CAPSULE_EXANIC_RX ;;
  let max_size := if (max_size =? 0)%N then 2048%N else max_size in
  buf <-- string_fill (v_alloc V) max_size NUL ;;
  res <-- ecall (v_receive V) (exanic_receive_frame rx max_size) ;;
  let buf := write_frame buf (snd res) in
  let n := fst res in
  if (n <=? 0)%Z then eret EmptyString
  else fun w => (bytes_of_buffer buf (Z.to_nat n), w).

Definition release_rx_buffer (rx_cap : pyobj) : EM unit :=
  valid <-- PyCapsule_IsValid rx_cap CAPSULE_EXANIC_RX ;;
  if negb valid then eret tt else
  rx <-- PyCapsule_GetPointer rx_cap CAPSULE_EXANIC_RX ;;
  _ <-- ecall (fun _ _ => tt) (exanic_release_rx_buffer rx) ;;
  _ <-- PyCapsule_SetPointer rx_cap None ;;
  eret tt.

Definition release_handle (handle_cap : pyobj) : EM unit :=
  valid <-- PyCapsule_IsValid handle_cap CAPSULE_EXANIC ;;
  if negb valid then eret tt else
  nic <-- PyCapsule_GetPointer handle_cap CAPSULE_EXANIC ;;
  _ <-- ecall (fun _ _ => tt) (exanic_release_handle nic) ;;
  _ <-- PyCapsule_SetPointer handle_cap None ;;
  eret tt.

Definition get_last_error : EM string :=
  err <-- ecall (v_last_error V) exanic_get_last_error ;;
  eret (match err with Some e => e | None => EmptyString end).
End Bindings.
End Exanic.

(** ** Callback trampolines: [PyMdSpi] (ctp_pybind.cpp:12-39) and
    [PyNsqSpi] (nsq_pybind.cpp:15-38)

    [PYBIND11_OVERLOAD(void, Base, Name, args...)] looks up [Name] on the
    Python object's type.  When the attribute is a Python function it is
    called with the arguments cast to Python (a pointer becomes a reference
    to the same C++ object, or None for nullptr); when the attribute is the
    C++ method bound on the base class (a subclass that does not define the
    method inherits it) or is absent, [Base::Name(args...)] runs. *)
Module Trampoline.
Inductive pyarg :=
| ArgPtr (p : option ptr)
| ArgInt (z : Z)
| ArgBool (b : bool).

Inductive py_attr :=
| PyFunction (f : positive)
| CppMethod.

(** the attribute a Python callback object has under each name *)
Definition pyinst := string -> option py_attr.

Inductive dispatch (B : Type) :=
| CallPython (f : positive) (args : list pyarg)
| CallBase (b : B).
Arguments CallPython {B} f args.
Arguments CallBase {B} b.

Definition get_override (self : pyinst) (name : string) : option positive :=
  match self name with
  | Some (PyFunction f) => Some f
  | _ => None
  end.

Definition PYBIND11_OVERLOAD {B} (self : pyinst) (name : string)
    (args : list pyarg) (base : B) : dispatch B :=
  match get_override self name with
  | Some f => CallPython f args
  | None => CallBase base
  end.
End Trampoline.

Module MdSpi.
Import Trampoline.

(** the virtuals of [CThostFtdcMdSpi] that [PyMdSpi] overrides, with
    their arguments *)
Inductive call :=
| OnFrontConnected
| OnFrontDisconnected (nReason : Z)
| OnRspUserLogin (pRspUserLogin pRspInfo : option ptr) (nRequestID : Z) (bIsLast : bool)
| OnRtnDepthMarketData (pDepthMarketData : option ptr)
| OnRspSubMarketData (pSpecificInstrument pRspInfo : option ptr) (nRequestID : Z) (bIsLast : bool)
| OnRspError (pRspInfo : option ptr) (nRequestID : Z) (bIsLast : bool).

(** [PyMdSpi]: the override the vendor reaches through the vtable; a
    [CallBase c] runs [CThostFtdcMdSpi]'s own method on the same
    arguments. *)
Definition PyMdSpi (self : pyinst) (c : call) : dispatch call :=
  match c with
  | OnFrontConnected =>
      PYBIND11_OVERLOAD self "OnFrontConnected" [] OnFrontConnected
  | OnFrontDisconnected nReason =>
      PYBIND11_OVERLOAD self "OnFrontDisconnected" [ArgInt nReason]
        (OnFrontDisconnected nReason)
  | OnRspUserLogin pRspUserLogin pRspInfo nRequestID bIsLast =>
      PYBIND11_OVERLOAD self "OnRspUserLogin"
        [ArgPtr pRspUserLogin; ArgPtr pRspInfo; ArgInt nRequestID; ArgBool bIsLast]
        (OnRspUserLogin pRspUserLogin pRspInfo nRequestID bIsLast)
  | OnRtnDepthMarketData pDepthMarketData =>
      PYBIND11_OVERLOAD self "OnRtnDepthMarketData" [ArgPtr pDepthMarketData]
        (OnRtnDepthMarketData pDepthMarketData)
  | OnRspSubMarketData pSpecificInstrument pRspInfo nRequestID bIsLast =>
      PYBIND11_OVERLOAD self "OnRspSubMarketData"
        [ArgPtr pSpecificInstrument; ArgPtr pRspInfo; ArgInt nRequestID; ArgBool bIsLast]
        (OnRspSubMarketData pSpecificInstrument pRspInfo nRequestID bIsLast)
  | OnRspError pRspInfo nRequestID bIsLast =>
      PYBIND11_OVERLOAD self "OnRspError"
        [ArgPtr pRspInfo; ArgInt nRequestID; ArgBool bIsLast]
        (OnRspError pRspInfo nRequestID bIsLast)
  end.
End MdSpi.

Module NsqSpi.
Import Trampoline.

(** the virtuals of [CHSNsqSpi] that [PyNsqSpi] overrides *)
Inductive call :=
| OnFrontConnected
| OnFrontDisconnected (nResult : Z)
| OnRspUserLogin (pRspUserLogin pRspInfo : option ptr) (nRequestID : Z) (bIsLast : bool)
| OnRspFutuDepthMarketDataSubscribe (pRspInfo : option ptr) (nRequestID : Z) (bIsLast : bool)
| OnRtnFutuDepthMarketData (pFutuDepthMarketData : option ptr).

Definition PyNsqSpi (self : pyinst) (c : call) : dispatch call :=
  match c with
  | OnFrontConnected =>
      PYBIND11_OVERLOAD self "OnFrontConnected" [] OnFrontConnected
  | OnFrontDisconnected nResult =>
      PYBIND11_OVERLOAD self "OnFrontDisconnected" [ArgInt nResult]
        (OnFrontDisconnected nResult)
  | OnRspUserLogin pRspUserLogin pRspInfo nRequestID bIsLast =>
      PYBIND11_OVERLOAD self "OnRspUserLogin"
        [ArgPtr pRspUserLogin; ArgPtr pRspInfo; ArgInt nRequestID; ArgBool bIsLast]
        (OnRspUserLogin pRspUserLogin pRspInfo nRequestID bIsLast)
  | OnRspFutuDepthMarketDataSubscribe pRspInfo nRequestID bIsLast =>
      PYBIND11_OVERLOAD self "OnRspFutuDepthMarketDataSubscribe"
        [ArgPtr pRspInfo; ArgInt nRequestID; ArgBool bIsLast]
        (OnRspFutuDepthMarketDataSubscribe pRspInfo nRequestID bIsLast)
  | OnRtnFutuDepthMarketData pFutuDepthMarketData =>
      PYBIND11_OVERLOAD self "OnRtnFutuDepthMarketData" [ArgPtr pFutuDepthMarketData]
        (OnRtnFutuDepthMarketData pFutuDepthMarketData)
  end.
End NsqSpi.

(** The vendor interfaces' view of a callback: the name the virtual has in
    ThostFtdcMdApi.h / HSNsqApi.h and its arguments in declaration order. *)
Module SpiInterface.
Import Trampoline.

Definition md_name (c : MdSpi.call) : string :=
  match c with
  | MdSpi.OnFrontConnected => "OnFrontConnected"
  | MdSpi.OnFrontDisconnected _ => "OnFrontDisconnected"
  | MdSpi.OnRspUserLogin _ _ _ _ => "OnRspUserLogin"
  | MdSpi.OnRtnDepthMarketData _ => "OnRtnDepthMarketData"
  | MdSpi.OnRspSubMarketData _ _ _ _ => "OnRspSubMarketData"
  | MdSpi.OnRspError _ _ _ => "OnRspError"
  end.

Definition md_args (c : MdSpi.call) : list pyarg :=
  match c with
  | MdSpi.OnFrontConnected => []
  | MdSpi.OnFrontDisconnected n => [ArgInt n]
  | MdSpi.OnRspUserLogin p q n b => [ArgPtr p; ArgPtr q; ArgInt n; ArgBool b]
  | MdSpi.OnRtnDepthMarketData p => [ArgPtr p]
  | MdSpi.OnRspSubMarketData p q n b => [ArgPtr p; ArgPtr q; ArgInt n; ArgBool b]
  | MdSpi.OnRspError p n b => [ArgPtr p; ArgInt n; ArgBool b]
  end.

Definition nsq_name (c : NsqSpi.call) : string :=
  match c with
  | NsqSpi.OnFrontConnected => "OnFrontConnected"
  | NsqSpi.OnFrontDisconnected _ => "OnFrontDisconnected"
  | NsqSpi.OnRspUserLogin _ _ _ _ => "OnRspUserLogin"
  | NsqSpi.OnRspFutuDepthMarketDataSubscribe _ _ _ => "OnRspFutuDepthMarketDataSubscribe"
  | NsqSpi.OnRtnFutuDepthMarketData _ => "OnRtnFutuDepthMarketData"
  end.

Definition nsq_args (c : NsqSpi.call) : list pyarg :=
  match c with
  | NsqSpi.OnFrontConnected => []
  | NsqSpi.OnFrontDisconnected n => [ArgInt n]
  | NsqSpi.OnRspUserLogin p q n b => [ArgPtr p; ArgPtr q; ArgInt n; ArgBool b]
  | NsqSpi.OnRspFutuDepthMarketDataSubscribe p n b => [ArgPtr p; ArgInt n; ArgBool b]
  | NsqSpi.OnRtnFutuDepthMarketData p => [ArgPtr p]
  end.
End SpiInterface.

(** ** Read-only accessors over the vendor records
    (ctp_pybind.cpp:96-150, nsq_pybind.cpp:118-174) *)

(** values as pybind11 hands them to Python *)
Inductive pyval :=
| PyInt (z : Z)
| PyFloat (d : double)
| PyStr (s : string)
| PyFloatList (l : list double).

(** The value of a vendor struct field: a char array, a number (given by
    the Python number equal to it), or an array of numbers read as
    doubles. *)
Inductive cval :=
| CChars (a : list ascii)
| CNum (v : pyval)
| CArray (l : list double).

Definition to_py (v : cval) : option pyval :=
  match v with
  | CChars a => option_map PyStr (string_of_cchars a)
  | CNum v => Some v
  | CArray l => Some (PyFloatList l)
  end.

(** one property of a [py::class_]: its name and its getter *)
Definition binding (T : Type) := (string * (T -> option pyval))%type.

(** [.def_readonly(name, &T::field)] on an [int] field *)
Definition def_readonly_int {T} (name : string) (field : T -> Z) : binding T :=
  (name, fun f => Some (PyInt (field f))).

(** [.def_readonly(name, &T::field)] on a [double] field *)
Definition def_readonly_double {T} (name : string) (field : T -> double) : binding T :=
  (name, fun f => Some (PyFloat (field f))).

(** [.def_property_readonly(name, [](const T &f) { return std::string(f.X); })] *)
Definition def_property_string {T} (name : string) (field : T -> list ascii) : binding T :=
  (name, fun f => option_map PyStr (string_of_cchars (field f))).

(** [std::vector<double> v; for (int i = 0; i < 5; i++) v.push_back(arr[i]);]
    with [conv] the conversion of an entry to [double]; an index past the
    array is an out-of-bounds read. *)
Fixpoint push_levels {E} (conv : E -> double) (arr : list E) (i k : nat)
    (v : list double) : option (list double) :=
  match k with
  | O => Some v
  | S k' =>
      match nth_error arr i with
      | Some x => push_levels conv arr (S i) k' (v ++ [conv x])
      | None => None
      end
  end.

Definition def_property_levels {T E} (name : string) (conv : E -> double)
    (field : T -> list E) : binding T :=
  (name, fun f => option_map PyFloatList (push_levels conv (field f) 0 5 [])).

Fixpoint find_binding {T} (name : string) (bs : list (binding T)) : option (T -> option pyval) :=
  match bs with
  | [] => None
  | (n, g) :: bs' => if String.eqb n name then Some g else find_binding name bs'
  end.

(** attribute read on a bound record: the record and the getter's value *)
Definition py_getattr {T} (bs : list (binding T)) (obj : T) (name : string)
    : option (T * option pyval) :=
  option_map (fun g => (obj, g obj)) (find_binding name bs).

Fixpoint assoc {V} (name : string) (l : list (string * V)) : option V :=
  match l with
  | [] => None
  | (n, v) :: l' => if String.eqb n name then Some v else assoc name l'
  end.

Module CThostFtdcRspInfoField.
Record t := mk { ErrorID : Z; ErrorMsg : list ascii }.

Definition fields (f : t) : list (string * cval) :=
  [("ErrorID", CNum (PyInt (ErrorID f))); ("ErrorMsg", CChars (ErrorMsg f))].

Definition bindings : list (binding t) :=
  [def_readonly_int "ErrorID" ErrorID;
   def_property_string "ErrorMsg" ErrorMsg].
End CThostFtdcRspInfoField.

Module CThostFtdcRspUserLoginField.
Record t := mk {
  TradingDay : list ascii; LoginTime : list ascii; BrokerID : list ascii;
  UserID : list ascii; SystemName : list ascii; FrontID : Z; SessionID : Z
}.

Definition fields (f : t) : list (string * cval) :=
  [("TradingDay", CChars (TradingDay f)); ("LoginTime", CChars (LoginTime f));
   ("BrokerID", CChars (BrokerID f)); ("UserID", CChars (UserID f));
   ("SystemName", CChars (SystemName f));
   ("FrontID", CNum (PyInt (FrontID f))); ("SessionID", CNum (PyInt (SessionID f)))].

Definition bindings : list (binding t) :=
  [def_property_string "TradingDay" TradingDay;
   def_property_string "LoginTime" LoginTime;
   def_property_string "BrokerID" BrokerID;
   def_property_string "UserID" UserID;
   def_readonly_int "FrontID" FrontID;
   def_readonly_int "SessionID" SessionID].
End CThostFtdcRspUserLoginField.

Module CThostFtdcDepthMarketDataField.
Record t := mk {
  TradingDay : list ascii; InstrumentID : list ascii; ExchangeID : list ascii;
  LastPrice : double; PreSettlementPrice : double; PreClosePrice : double;
  PreOpenInterest : double; OpenPrice : double; HighestPrice : double;
  LowestPrice : double; Volume : Z; Turnover : double; OpenInterest : double;
  ClosePrice : double; SettlementPrice : double; UpperLimitPrice : double;
  LowerLimitPrice : double; UpdateTime : list ascii; UpdateMillisec : Z;
  BidPrice1 : double; BidVolume1 : Z; AskPrice1 : double; AskVolume1 : Z;
  AveragePrice : double; ActionDay : list ascii
}.

Definition fields (f : t) : list (string * cval) :=
  [("TradingDay", CChars (TradingDay f)); ("InstrumentID", CChars (InstrumentID f));
   ("ExchangeID", CChars (ExchangeID f));
   ("LastPrice", CNum (PyFloat (LastPrice f)));
   ("PreSettlementPrice", CNum (PyFloat (PreSettlementPrice f)));
   ("PreClosePrice", CNum (PyFloat (PreClosePrice f)));
   ("PreOpenInterest", CNum (PyFloat (PreOpenInterest f)));
   ("OpenPrice", CNum (PyFloat (OpenPrice f)));
   ("HighestPrice", CNum (PyFloat (HighestPrice f)));
   ("LowestPrice", CNum (PyFloat (LowestPrice f)));
   ("Volume", CNum (PyInt (Volume f)));
   ("Turnover", CNum (PyFloat (Turnover f)));
   ("OpenInterest", CNum (PyFloat (OpenInterest f)));
   ("ClosePrice", CNum (PyFloat (ClosePrice f)));
   ("SettlementPrice", CNum (PyFloat (SettlementPrice f)));
   ("UpperLimitPrice", CNum (PyFloat (UpperLimitPrice f)));
   ("LowerLimitPrice", CNum (PyFloat (LowerLimitPrice f)));
   ("UpdateTime", CChars (UpdateTime f));
   ("UpdateMillisec", CNum (PyInt (UpdateMillisec f)));
   ("BidPrice1", CNum (PyFloat (BidPrice1 f)));
   ("BidVolume1", CNum (PyInt (BidVolume1 f)));
   ("AskPrice1", CNum (PyFloat (AskPrice1 f)));
   ("AskVolume1", CNum (PyInt (AskVolume1 f)));
   ("AveragePrice", CNum (PyFloat (AveragePrice f)));
   ("ActionDay", CChars (ActionDay f))].

Definition bindings : list (binding t) :=
  [def_property_string "TradingDay" TradingDay;
   def_property_string "InstrumentID" InstrumentID;
   def_property_string "ExchangeID" ExchangeID;
   def_readonly_double "LastPrice" LastPrice;
   def_readonly_double "PreSettlementPrice" PreSettlementPrice;
   def_readonly_double "PreClosePrice" PreClosePrice;
   def_readonly_double "PreOpenInterest" PreOpenInterest;
   def_readonly_double "OpenPrice" OpenPrice;
   def_readonly_double "HighestPrice" HighestPrice;
   def_readonly_double "LowestPrice" LowestPrice;
   def_readonly_int "Volume" Volume;
   def_readonly_double "Turnover" Turnover;
   def_readonly_double "OpenInterest" OpenInterest;
   def_readonly_double "ClosePrice" ClosePrice;
   def_readonly_double "SettlementPrice" SettlementPrice;
   def_readonly_double "UpperLimitPrice" UpperLimitPrice;
   def_readonly_double "LowerLimitPrice" LowerLimitPrice;
   def_property_string "UpdateTime" UpdateTime;
   def_readonly_int "UpdateMillisec" UpdateMillisec;
   def_readonly_double "BidPrice1" BidPrice1;
   def_readonly_int "BidVolume1" BidVolume1;
   def_readonly_double "AskPrice1" AskPrice1;
   def_readonly_int "AskVolume1" AskVolume1;
   def_readonly_double "AveragePrice" AveragePrice;
   def_property_string "ActionDay" ActionDay].
End CThostFtdcDepthMarketDataField.

Module CThostFtdcSpecificInstrumentField.
Record t := mk { InstrumentID : list ascii }.

Definition fields (f : t) : list (string * cval) :=
  [("InstrumentID", CChars (InstrumentID f))].

Definition bindings : list (binding t) :=
  [def_property_string "InstrumentID" InstrumentID].
End CThostFtdcSpecificInstrumentField.

Module CHSNsqRspInfoField.
Record t := mk { ErrorID : Z; ErrorMsg : list ascii }.

Definition fields (f : t) : list (string * cval) :=
  [("ErrorID", CNum (PyInt (ErrorID f))); ("ErrorMsg", CChars (ErrorMsg f))].

Definition bindings : list (binding t) :=
  [def_readonly_int "ErrorID" ErrorID;
   def_property_string "ErrorMsg" ErrorMsg].
End CHSNsqRspInfoField.

Module CHSNsqRspUserLoginField.
Record t := mk { BranchID : Z; AccountID : list ascii; UserName : list ascii; TradingDay : Z }.

Definition fields (f : t) : list (string * cval) :=
  [("BranchID", CNum (PyInt (BranchID f))); ("AccountID", CChars (AccountID f));
   ("UserName", CChars (UserName f)); ("TradingDay", CNum (PyInt (TradingDay f)))].

Definition bindings : list (binding t) :=
  [def_readonly_int "BranchID" BranchID;
   def_property_string "AccountID" AccountID;
   def_property_string "UserName" UserName;
   def_readonly_int "TradingDay" TradingDay].
End CHSNsqRspUserLoginField.

(** The quantity type [HSQty] of the NSQ header is not part of the
    repository: it is a parameter, with [qty_py] the Python number pybind11
    makes of one and [qty_to_double] the C++ conversion to [double]. *)
Module CHSNsqFutuDepthMarketDataField.
Record t {HSQty : Type} := mk {
  TradingDay : Z; InstrumentID : list ascii; ExchangeID : list ascii;
  LastPrice : double; PreSettlementPrice : double; PreClosePrice : double;
  OpenPrice : double; HighestPrice : double; LowestPrice : double;
  TradeVolume : HSQty; OpenInterest : HSQty; UpdateTime : Z; ActionDay : Z;
  BidPrice : list double; BidVolume : list HSQty;
  AskPrice : list double; AskVolume : list HSQty
}.
Arguments t : clear implicits.

Section Bindings.
Context {HSQty : Type} (qty_py : HSQty -> pyval) (qty_to_double : HSQty -> double).

Definition fields (f : t HSQty) : list (string * cval) :=
  [("TradingDay", CNum (PyInt (TradingDay f)));
   ("InstrumentID", CChars (InstrumentID f)); ("ExchangeID", CChars (ExchangeID f));
   ("LastPrice", CNum (PyFloat (LastPrice f)));
   ("PreSettlementPrice", CNum (PyFloat (PreSettlementPrice f)));
   ("PreClosePrice", CNum (PyFloat (PreClosePrice f)));
   ("OpenPrice", CNum (PyFloat (OpenPrice f)));
   ("HighestPrice", CNum (PyFloat (HighestPrice f)));
   ("LowestPrice", CNum (PyFloat (LowestPrice f)));
   ("TradeVolume", CNum (qty_py (TradeVolume f)));
   ("OpenInterest", CNum (qty_py (OpenInterest f)));
   ("UpdateTime", CNum (PyInt (UpdateTime f)));
   ("ActionDay", CNum (PyInt (ActionDay f)));
   ("BidPrice", CArray (BidPrice f));
   ("BidVolume", CArray (map qty_to_double (BidVolume f)));
   ("AskPrice", CArray (AskPrice f));
   ("AskVolume", CArray (map qty_to_double (AskVolume f)))].

Definition def_readonly_qty (name : string) (field : t HSQty -> HSQty) : binding (t HSQty) :=
  (name, fun f => Some (qty_py (field f))).

Definition bindings : list (binding (t HSQty)) :=
  [def_readonly_int "TradingDay" TradingDay;
   def_property_string "InstrumentID" InstrumentID;
   def_property_string "ExchangeID" ExchangeID;
   def_readonly_double "LastPrice" LastPrice;
   def_readonly_double "PreSettlementPrice" PreSettlementPrice;
   def_readonly_double "PreClosePrice" PreClosePrice;
   def_readonly_double "OpenPrice" OpenPrice;
   def_readonly_double "HighestPrice" HighestPrice;
   def_readonly_double "LowestPrice" LowestPrice;
   def_readonly_qty "TradeVolume" TradeVolume;
   def_readonly_qty "OpenInterest" OpenInterest;
   def_readonly_int "UpdateTime" UpdateTime;
   def_readonly_int "ActionDay" ActionDay;
   def_property_levels "BidPrice" (fun d => d) BidPrice;
   def_property_levels "BidVolume" qty_to_double BidVolume;
   def_property_levels "AskPrice" (fun d => d) AskPrice;
   def_property_levels "AskVolume" qty_to_double AskVolume].
End Bindings.
End CHSNsqFutuDepthMarketDataField.

(** ** Statements used by the claims *)

(** [s] truncated to its first [k] bytes *)
Definition truncate (k : nat) (s : string) : string :=
  string_of_list_ascii (firstn k (list_ascii_of_string s)).

(** the last byte of a char array is NUL *)
Definition nul_terminated (a : list ascii) : Prop :=
  nth_error a (length a - 1) = Some NUL.

Definition no_nul (s : string) : Prop := ~ In NUL (list_ascii_of_string s).

(** a setter built on [copy_cstr] *)
Definition truncating_setter {T} (arr : T -> list ascii) (get : T -> option string)
    (set : T -> string -> T) : Prop :=
  forall f v, 1 <= length (arr f) ->
    get (set f v) = Some (truncate (length (arr f) - 1) (cut_nul v)) /\
    length (arr (set f v)) = length (arr f) /\
    nul_terminated (arr (set f v)).

(** a setter that stores what fits with its terminator *)
Definition fitting_setter {T} (arr : T -> list ascii) (get : T -> option string)
    (set : T -> string -> T) : Prop :=
  forall f v, String.length (cut_nul v) < length (arr f) ->
    get (set f v) = Some (cut_nul v) /\
    length (arr (set f v)) = length (arr f) /\
    nul_terminated (arr (set f v)).

(** a setter that, given a value filling the array, stores its first
    [sizeof] bytes and no terminator, so the getter reads past the array *)
Definition unterminating_setter {T} (arr : T -> list ascii) (get : T -> option string)
    (set : T -> string -> T) : Prop :=
  forall f v, length (arr f) <= String.length (cut_nul v) ->
    arr (set f v) = firstn (length (arr f)) (list_ascii_of_string (cut_nul v)) /\
    ~ nul_terminated (arr (set f v)) /\
    get (set f v) = None.

(** * Proofs *)

(** ** C strings *)

Lemma nul_eqb_true c : (c =? NUL)%char = true -> c = NUL.
Proof. intros H. now apply Ascii.eqb_eq. Qed.

Lemma nul_eqb_false c : c <> NUL -> (c =? NUL)%char = false.
Proof. intros H. now apply Ascii.eqb_neq. Qed.

Lemma prefix_nul_no_nul l : ~ In NUL (prefix_nul l).
Proof.
  induction l as [|c l IH]; simpl; [tauto|].
  destruct (c =? NUL)%char eqn:E; simpl; [tauto|].
  intros [H|H]; [subst; rewrite Ascii.eqb_refl in E; discriminate | tauto].
Qed.

Lemma prefix_nul_app_nul l : prefix_nul (l ++ [NUL]) = prefix_nul l.
Proof.
  induction l as [|c l IH]; simpl; [reflexivity|].
  destruct (c =? NUL)%char; [reflexivity | now rewrite IH].
Qed.

Lemma prefix_nul_id l : ~ In NUL l -> prefix_nul l = l.
Proof.
  induction l as [|c l IH]; simpl; intros H; [reflexivity|].
  rewrite nul_eqb_false by (intros ->; tauto).
  rewrite IH; tauto.
Qed.

Lemma prefix_nul_c_str v : prefix_nul (c_str v) = list_ascii_of_string (cut_nul v).
Proof.
  unfold c_str, cut_nul. now rewrite prefix_nul_app_nul, list_ascii_of_string_of_list_ascii.
Qed.

Lemma firstn_repeat_le {A} (x : A) n m : n <= m -> firstn n (repeat x m) = repeat x n.
Proof.
  revert m; induction n as [|n IH]; intros [|m] H; simpl; try reflexivity; try lia.
  f_equal. apply IH. lia.
Qed.

Lemma strncpy_n_spec n : forall l m, n <= m ->
  strncpy_n l n = firstn n (prefix_nul l ++ repeat NUL m).
Proof.
  induction n as [|n IH]; intros l m Hm; [reflexivity|].
  destruct l as [|c l]; cbn [strncpy_n prefix_nul app].
  - symmetry. apply firstn_repeat_le. exact Hm.
  - destruct (c =? NUL)%char; cbn [app].
    + symmetry. apply firstn_repeat_le. exact Hm.
    + simpl. f_equal. apply IH. lia.
Qed.

Lemma string_of_cchars_app_nul p r : ~ In NUL p ->
  string_of_cchars (p ++ NUL :: r) = Some (string_of_list_ascii p).
Proof.
  induction p as [|c p IH]; simpl; intros H.
  - reflexivity.
  - rewrite nul_eqb_false by (intros ->; tauto). rewrite IH by tauto. reflexivity.
Qed.

Lemma string_of_cchars_no_nul p : ~ In NUL p -> string_of_cchars p = None.
Proof.
  induction p as [|c p IH]; simpl; intros H; [reflexivity|].
  rewrite nul_eqb_false by (intros ->; tauto). rewrite IH by tauto. reflexivity.
Qed.

Lemma skipn_repeat_S {A} (x : A) k : skipn k (repeat x (S k)) = [x].
Proof. induction k as [|k IH]; [reflexivity | exact IH]. Qed.

Lemma in_firstn_in {A} (x : A) k p : In x (firstn k p) -> In x p.
Proof.
  revert p; induction k as [|k IH]; intros [|y p]; simpl; try tauto.
  intros [->|H]; [now left | right; now apply IH].
Qed.

Lemma length_list_ascii_of_string s : length (list_ascii_of_string s) = String.length s.
Proof. induction s as [|c s IH]; simpl; congruence. Qed.

Lemma cut_nul_no_nul v : ~ In NUL (list_ascii_of_string (cut_nul v)).
Proof.
  unfold cut_nul. rewrite list_ascii_of_string_of_list_ascii. apply prefix_nul_no_nul.
Qed.

Lemma cut_nul_id v : no_nul v -> cut_nul v = v.
Proof.
  unfold no_nul, cut_nul. intros H. rewrite prefix_nul_id by exact H.
  apply string_of_list_ascii_of_string.
Qed.

Lemma truncate_id k v : String.length v <= k -> truncate k v = v.
Proof.
  unfold truncate. intros H. rewrite firstn_all2.
  - apply string_of_list_ascii_of_string.
  - now rewrite length_list_ascii_of_string.
Qed.

(** what [copy_cstr] leaves in an array of [S k] bytes *)
Lemma copy_cstr_bytes dest k v : length dest = S k ->
  let p := list_ascii_of_string (cut_nul v) in
  copy_cstr dest (S k) v = firstn k p ++ NUL :: repeat NUL (k - length p).
Proof.
  intros Hlen p. unfold copy_cstr, memset0, strncpy.
  assert (skipn (S k) dest = []) as -> by (apply skipn_all2; lia). rewrite app_nil_r.
  replace (S k - 1) with k by lia.
  rewrite (strncpy_n_spec k (c_str v) k) by lia.
  rewrite prefix_nul_c_str. fold p.
  rewrite firstn_app, firstn_repeat_le by lia.
  rewrite skipn_repeat_S, <- app_assoc, <- repeat_cons. reflexivity.
Qed.

Lemma nul_terminated_pad q j : nul_terminated (q ++ repeat NUL (S j)).
Proof.
  unfold nul_terminated. rewrite length_app, repeat_length.
  rewrite nth_error_app2 by lia.
  apply nth_error_repeat. lia.
Qed.

Lemma no_nul_firstn k p : ~ In NUL p -> ~ In NUL (firstn k p).
Proof. intros H Hin. apply H. exact (in_firstn_in _ _ _ Hin). Qed.

Lemma copy_cstr_setter_spec dest v : 1 <= length dest ->
  let a := copy_cstr dest (length dest) v in
  string_of_cchars a = Some (truncate (length dest - 1) (cut_nul v)) /\
  length a = length dest /\ nul_terminated a.
Proof.
  intros Hlen a. destruct (length dest) as [|k] eqn:E; [lia|].
  subst a. rewrite (copy_cstr_bytes dest k v E).
  set (p := list_ascii_of_string (cut_nul v)).
  assert (Hp : ~ In NUL p) by apply cut_nul_no_nul.
  split; [|split].
  - rewrite string_of_cchars_app_nul by (apply no_nul_firstn; exact Hp).
    unfold truncate. fold p. replace (S k - 1) with k by lia. reflexivity.
  - rewrite length_app, length_firstn. simpl. rewrite repeat_length. lia.
  - exact (nul_terminated_pad (firstn k p) (k - length p)).
Qed.

(** what [strncpy(dest, v.c_str(), sizeof(dest))] leaves when [v] fits *)
Lemma strncpy_fit_bytes dest v :
  let p := list_ascii_of_string (cut_nul v) in
  length p < length dest ->
  strncpy dest (c_str v) (length dest) = p ++ repeat NUL (length dest - length p).
Proof.
  intros p Hlt. unfold strncpy.
  assert (skipn (length dest) dest = []) as -> by (apply skipn_all2; lia). rewrite app_nil_r.
  rewrite (strncpy_n_spec (length dest) (c_str v) (length dest)) by lia.
  rewrite prefix_nul_c_str. fold p.
  rewrite firstn_app, firstn_all2 by lia.
  rewrite firstn_repeat_le by lia. reflexivity.
Qed.

Lemma strncpy_setter_spec dest v :
  String.length (cut_nul v) < length dest ->
  let a := strncpy dest (c_str v) (length dest) in
  string_of_cchars a = Some (cut_nul v) /\
  length a = length dest /\ nul_terminated a.
Proof.
  intros Hlt a.
  set (p := list_ascii_of_string (cut_nul v)).
  assert (Hp : ~ In NUL p) by apply cut_nul_no_nul.
  assert (Hlp : length p < length dest) by (unfold p; rewrite length_list_ascii_of_string; exact Hlt).
  subst a. rewrite (strncpy_fit_bytes dest v Hlp). fold p.
  destruct (length dest - length p) as [|j] eqn:E; [lia|].
  split; [|split].
  - cbn [repeat]. rewrite string_of_cchars_app_nul by exact Hp.
    unfold p. apply f_equal, string_of_list_ascii_of_string.
  - rewrite length_app, repeat_length. lia.
  - apply nul_terminated_pad.
Qed.

(** ** Claim C3: the string-field setters *)

Lemma nsq_setters_truncating :
  truncating_setter CHSNsqReqUserLoginField.AccountID
    CHSNsqReqUserLoginField.get_AccountID CHSNsqReqUserLoginField.set_AccountID /\
  truncating_setter CHSNsqReqUserLoginField.Password
    CHSNsqReqUserLoginField.get_Password CHSNsqReqUserLoginField.set_Password.
Proof.
  split; intros r w H; apply (copy_cstr_setter_spec _ w H).
Qed.

Lemma ctp_setters_fitting :
  fitting_setter CThostFtdcReqUserLoginField.BrokerID
    CThostFtdcReqUserLoginField.get_BrokerID CThostFtdcReqUserLoginField.set_BrokerID /\
  fitting_setter CThostFtdcReqUserLoginField.UserID
    CThostFtdcReqUserLoginField.get_UserID CThostFtdcReqUserLoginField.set_UserID /\
  fitting_setter CThostFtdcReqUserLoginField.Password
    CThostFtdcReqUserLoginField.get_Password CThostFtdcReqUserLoginField.set_Password.
Proof.
  split; [|split]; intros r w H; apply (strncpy_setter_spec _ w H).
Qed.

(** [strncpy] of a value that fills the whole array *)
Lemma strncpy_fill_bytes dest v :
  length dest <= String.length (cut_nul v) ->
  strncpy dest (c_str v) (length dest) =
  firstn (length dest) (list_ascii_of_string (cut_nul v)).
Proof.
  intros Hge. unfold strncpy.
  assert (skipn (length dest) dest = []) as -> by (apply skipn_all2; lia). rewrite app_nil_r.
  rewrite (strncpy_n_spec (length dest) (c_str v) (length dest)) by lia.
  rewrite prefix_nul_c_str, firstn_app, length_list_ascii_of_string.
  replace (length dest - String.length (cut_nul v)) with 0 by lia.
  apply app_nil_r.
Qed.

Lemma strncpy_unterminated_spec dest v :
  length dest <= String.length (cut_nul v) ->
  let a := strncpy dest (c_str v) (length dest) in
  a = firstn (length dest) (list_ascii_of_string (cut_nul v)) /\
  ~ nul_terminated a /\ string_of_cchars a = None.
Proof.
  intros Hge a. unfold a. rewrite (strncpy_fill_bytes dest v Hge).
  assert (Hn : ~ In NUL (firstn (length dest) (list_ascii_of_string (cut_nul v))))
    by (apply no_nul_firstn, cut_nul_no_nul).
  split; [reflexivity|]. split.
  - unfold nul_terminated. intros Ht. apply Hn. eapply nth_error_In. exact Ht.
  - apply string_of_cchars_no_nul. exact Hn.
Qed.

Lemma ctp_setters_unterminating :
  unterminating_setter CThostFtdcReqUserLoginField.BrokerID
    CThostFtdcReqUserLoginField.get_BrokerID CThostFtdcReqUserLoginField.set_BrokerID /\
  unterminating_setter CThostFtdcReqUserLoginField.UserID
    CThostFtdcReqUserLoginField.get_UserID CThostFtdcReqUserLoginField.set_UserID /\
  unterminating_setter CThostFtdcReqUserLoginField.Password
    CThostFtdcReqUserLoginField.get_Password CThostFtdcReqUserLoginField.set_Password.
Proof.
  split; [|split]; intros r w H; apply (strncpy_unterminated_spec _ w H).
Qed.

(** a CTP broker id that fills the whole [char[11]] array *)
Definition v_eleven : string := "12345678901".

(** [C3] (code bug): the CTP setters call [strncpy] with the full
    [sizeof] of the array, where the NSQ setters ([copy_cstr]) copy one
    byte less.  For every record and every value whose part before its
    first NUL is at least as long as the array, BrokerID, UserID and
    Password are left holding the first [sizeof] bytes of the value and no
    NUL terminator, so the getter reads past the array ([None]), instead
    of reading the value truncated to [sizeof - 1] bytes from a
    NUL-terminated array. *)
Theorem C3_ctp_setters_unterminated :
  forall f v,
    (length (CThostFtdcReqUserLoginField.BrokerID f) <= String.length (cut_nul v) ->
     let f' := CThostFtdcReqUserLoginField.set_BrokerID f v in
     CThostFtdcReqUserLoginField.BrokerID f' =
       firstn (length (CThostFtdcReqUserLoginField.BrokerID f)) (list_ascii_of_string (cut_nul v)) /\
     ~ nul_terminated (CThostFtdcReqUserLoginField.BrokerID f') /\
     CThostFtdcReqUserLoginField.get_BrokerID f' = None) /\
    (length (CThostFtdcReqUserLoginField.UserID f) <= String.length (cut_nul v) ->
     let f' := CThostFtdcReqUserLoginField.set_UserID f v in
     CThostFtdcReqUserLoginField.UserID f' =
       firstn (length (CThostFtdcReqUserLoginField.UserID f)) (list_ascii_of_string (cut_nul v)) /\
     ~ nul_terminated (CThostFtdcReqUserLoginField.UserID f') /\
     CThostFtdcReqUserLoginField.get_UserID f' = None) /\
    (length (CThostFtdcReqUserLoginField.Password f) <= String.length (cut_nul v) ->
     let f' := CThostFtdcReqUserLoginField.set_Password f v in
     CThostFtdcReqUserLoginField.Password f' =
       firstn (length (CThostFtdcReqUserLoginField.Password f)) (list_ascii_of_string (cut_nul v)) /\
     ~ nul_terminated (CThostFtdcReqUserLoginField.Password f') /\
     CThostFtdcReqUserLoginField.get_Password f' = None).
Proof.
  intros f v. destruct ctp_setters_unterminating as [Hb [Hu Hp]].
  split; [|split]; intros H; cbv zeta.
  - exact (Hb f v H).
  - exact (Hu f v H).
  - exact (Hp f v H).
Qed.

Lemma C3_ctp_setters_unterminated_witness :
  CThostFtdcReqUserLoginField.get_BrokerID
    (CThostFtdcReqUserLoginField.set_BrokerID CThostFtdcReqUserLoginField.init v_eleven) = None /\
  CThostFtdcReqUserLoginField.BrokerID
    (CThostFtdcReqUserLoginField.set_BrokerID CThostFtdcReqUserLoginField.init v_eleven) =
  list_ascii_of_string v_eleven.
Proof.
  destruct (C3_ctp_setters_unterminated CThostFtdcReqUserLoginField.init v_eleven) as [H _].
  destruct (H ltac:(vm_compute; lia)) as [Ha [_ Hg]].
  split; [exact Hg | rewrite Ha; vm_compute; reflexivity].
Defined.

(** ** Session objects *)

(** an [int]-returning method guarded by [if (api)] *)
Definition guarded_int {S C} (m : @M S C Z) (null : S) (live : ptr -> S)
    (c : ptr -> C) (answer : list C -> C -> Z) : Prop :=
  (forall tr, m (null, tr) = ((-1)%Z, (null, tr))) /\
  (forall a tr, m (live a, tr) = (answer tr (c a), (live a, tr ++ [c a]))).

(** a [void] method guarded by [if (api)] *)
Definition guarded_void {S C} (m : @M S C unit) (null : S) (live : ptr -> S)
    (c : ptr -> C) : Prop :=
  (forall tr, m (null, tr) = (tt, (null, tr))) /\
  (forall a tr, m (live a, tr) = (tt, (live a, tr ++ [c a]))).

Definition md_null : Ctp.PyMdApi := {| Ctp.api := None |}.
Definition md_live (a : ptr) : Ctp.PyMdApi := {| Ctp.api := Some a |}.
Definition nsq_null : Nsq.PyNsqApi := {| Nsq.api_ := None |}.
Definition nsq_live (a : ptr) : Nsq.PyNsqApi := {| Nsq.api_ := Some a |}.

Lemma push_symbols_app acc symbols : Ctp.push_symbols acc symbols = acc ++ symbols.
Proof.
  revert acc; induction symbols as [|s rest IH]; intros acc; simpl.
  - now rewrite app_nil_r.
  - rewrite IH, <- app_assoc. reflexivity.
Qed.

Lemma int_of_size_small n : (Z.of_nat n < 2 ^ 31)%Z -> int_of_size n = Z.of_nat n.
Proof.
  intros H. unfold int_of_size.
  rewrite Z.mod_small by lia.
  destruct (Z.ltb_spec (Z.of_nat n) (2 ^ 31)); [reflexivity | lia].
Qed.

Lemma int_of_size_2_31 : int_of_size (Z.to_nat (2 ^ 31)) = (- 2 ^ 31)%Z.
Proof. unfold int_of_size. rewrite Z2Nat.id by lia. reflexivity. Qed.

(** one request record per contract, as the NSQ subscribe loop fills them *)
Definition nsq_req_of (es is : nat) (contract : string * string) : Nsq.Req :=
  Nsq.CHSNsqReqFutuDepthMarketDataField.mk
    (copy_cstr (repeat NUL es) es (fst contract))
    (copy_cstr (repeat NUL is) is (snd contract)).

Lemma fill_reqs_repeat es is contracts :
  Nsq.fill_reqs (repeat (Nsq.req0 es is) (length contracts)) contracts
  = map (nsq_req_of es is) contracts.
Proof.
  induction contracts as [|[ex inst] rest IH]; simpl; [reflexivity|].
  rewrite IH. unfold nsq_req_of, Nsq.req0. simpl. rewrite !repeat_length. reflexivity.
Qed.

(** A concrete vendor for the examples: every handle is 1, every call
    answers 0. *)
Definition ctp_vendor0 : Ctp.vendor :=
  {| Ctp.create := fun _ _ => Some 1%positive;
     Ctp.answer := fun _ _ => 0%Z;
     Ctp.version := fun _ _ => "v6.7" |}.

Definition nsq_vendor0 : Nsq.vendor :=
  {| Nsq.create := fun _ _ => Some 1%positive;
     Nsq.answer := fun _ _ => 0%Z;
     Nsq.message := fun _ _ => None;
     Nsq.version := fun _ _ => "nsq" |}.

Definition exanic_vendor0 : Exanic.vendor :=
  {| Exanic.v_acquire := fun _ _ => Some 7%positive;
     Exanic.v_receive := fun _ _ => (3%Z, ["a"; "b"; "c"; "d"]%char);
     Exanic.v_last_error := fun _ _ => None;
     (* an allocator that grants up to 4 GiB *)
     Exanic.v_alloc := fun _ n => (n <=? 2 ^ 32)%N |}.

Definition exanic_world0 : Exanic.world := Exanic.mk_world (fun _ => None) 0 None [].

(** ** Claim C1: releasing a vendor handle *)

(** The session destructors release at most once: a second run finds the
    handle null and calls nothing. *)
Lemma session_dtor_idempotent :
  (forall st, Ctp.dtor (snd (Ctp.dtor st)) = (tt, snd (Ctp.dtor st)) /\
     forall a tr, Ctp.dtor (md_live a, tr) = (tt, (md_null, tr ++ [Ctp.Release a]))) /\
  (forall st, Nsq.dtor (snd (Nsq.dtor st)) = (tt, snd (Nsq.dtor st)) /\
     forall a tr, Nsq.dtor (nsq_live a, tr) = (tt, (nsq_null, tr ++ [Nsq.ReleaseApi a]))).
Proof.
  split; intros [[[a|]] tr]; split; reflexivity.
Qed.

(** the Python sequence [h = acquire_handle("exanic0"); release_handle(h);
    release_handle(h)] (each release call returning to Python) *)
Definition exanic_double_release (V : Exanic.vendor) :
    Exanic.outcome unit * Exanic.outcome unit * list Exanic.call :=
  let (r1, w1) := Exanic.py_invoke (Exanic.acquire_handle V "exanic0") exanic_world0 in
  match r1 with
  | Exanic.Ok h =>
      let (r2, w2) := Exanic.py_invoke (Exanic.release_handle h) w1 in
      let (r3, w3) := Exanic.py_invoke (Exanic.release_handle h) w2 in
      (r2, r3, Exanic.trace w3)
  | _ => (Exanic.Undefined, Exanic.Undefined, [])
  end.

(** the same for an RX buffer *)
Definition exanic_double_release_rx (V : Exanic.vendor) :
    Exanic.outcome unit * Exanic.outcome unit * list Exanic.call :=
  let (r1, w1) := Exanic.py_invoke (Exanic.acquire_handle V "exanic0") exanic_world0 in
  match r1 with
  | Exanic.Ok h =>
      let (r2, w2) := Exanic.py_invoke (Exanic.acquire_rx_buffer V h 0 0) w1 in
      match r2 with
      | Exanic.Ok rx =>
          let (r3, w3) := Exanic.py_invoke (Exanic.release_rx_buffer rx) w2 in
          let (r4, w4) := Exanic.py_invoke (Exanic.release_rx_buffer rx) w3 in
          (r3, r4, Exanic.trace w4)
      | _ => (Exanic.Undefined, Exanic.Undefined, [])
      end
  | _ => (Exanic.Undefined, Exanic.Undefined, [])
  end.

(** [C1] (code bug): [PyCapsule_SetPointer(cap, nullptr)] is refused by
    CPython (ValueError, pointer kept), so after [release_handle] /
    [release_rx_buffer] the capsule is still valid and a second call
    releases the same vendor pointer again; each call also returns to
    Python with the error indicator set (SystemError). *)
Theorem C1_exanic_release_twice :
  exanic_double_release exanic_vendor0 =
    (Exanic.Raise Exanic.SystemError, Exanic.Raise Exanic.SystemError,
     [Exanic.exanic_acquire_handle "exanic0";
      Exanic.exanic_release_handle (Some 7%positive);
      Exanic.exanic_release_handle (Some 7%positive)]) /\
  exanic_double_release_rx exanic_vendor0 =
    (Exanic.Raise Exanic.SystemError, Exanic.Raise Exanic.SystemError,
     [Exanic.exanic_acquire_handle "exanic0";
      Exanic.exanic_acquire_rx_buffer (Some 7%positive) 0 0;
      Exanic.exanic_release_rx_buffer (Some 7%positive);
      Exanic.exanic_release_rx_buffer (Some 7%positive)]).
Proof. split; vm_compute; reflexivity. Qed.

Lemma ctp_subscribe_live V a tr symbols :
  Ctp.SubscribeMarketData_m V symbols (md_live a, tr) =
  (Ctp.answer V tr (Ctp.SubscribeMarketData a symbols (int_of_size (length symbols))),
   (md_live a, tr ++ [Ctp.SubscribeMarketData a symbols (int_of_size (length symbols))])).
Proof. cbn -[int_of_size]. now rewrite push_symbols_app. Qed.

Lemma nsq_subscribe_live V es is a tr contracts id :
  Nsq.ReqFutuDepthMarketDataSubscribe_m V es is contracts id (nsq_live a, tr) =
  let c := Nsq.ReqFutuDepthMarketDataSubscribe a (map (nsq_req_of es is) contracts)
             (int_of_size (length contracts)) id in
  (Nsq.answer V tr c, (nsq_live a, tr ++ [c])).
Proof.
  cbn -[int_of_size Nsq.fill_reqs repeat copy_cstr].
  rewrite fill_reqs_repeat, length_map. reflexivity.
Qed.

(** ** Claim C2: methods on a null handle *)

(** [C2]: every session method of [PyMdApi] and [PyNsqApi] checks the
    handle: on a null handle it calls no vendor function (trace and object
    unchanged), the [int] methods return -1 and the [void] methods do
    nothing (for [GetApiErrorMsg]: the empty string); on a live handle it
    makes exactly the one vendor call and returns what that call returns. *)
Theorem C2_null_handle_guard :
  (forall spi, guarded_void (Ctp.RegisterSpi_m spi) md_null md_live
                 (fun a => Ctp.RegisterSpi a spi)) /\
  (forall addr, guarded_void (Ctp.RegisterFront_m addr) md_null md_live
                  (fun a => Ctp.RegisterFront a addr)) /\
  guarded_void Ctp.Init_m md_null md_live Ctp.Init /\
  (forall V, guarded_int (Ctp.Join_m V) md_null md_live Ctp.Join (Ctp.answer V)) /\
  (forall V req id, guarded_int (Ctp.ReqUserLogin_m V req id) md_null md_live
                      (fun a => Ctp.ReqUserLogin a req id) (Ctp.answer V)) /\
  (forall V symbols,
     guarded_int (Ctp.SubscribeMarketData_m V symbols) md_null md_live
       (fun a => Ctp.SubscribeMarketData a symbols (int_of_size (length symbols)))
       (Ctp.answer V)) /\
  (forall spi, guarded_void (Nsq.RegisterSpi_m spi) nsq_null nsq_live
                 (fun a => Nsq.RegisterSpi a spi)) /\
  (forall V front, guarded_int (Nsq.RegisterFront_m V front) nsq_null nsq_live
                     (fun a => Nsq.RegisterFront a front) (Nsq.answer V)) /\
  (forall V lic safe pwd ssl sslpwd,
     guarded_int (Nsq.Init_m V lic safe pwd ssl sslpwd) nsq_null nsq_live
       (fun a => Nsq.Init a lic safe pwd ssl sslpwd) (Nsq.answer V)) /\
  (forall V req id, guarded_int (Nsq.ReqUserLogin_m V req id) nsq_null nsq_live
                      (fun a => Nsq.ReqUserLogin a req id) (Nsq.answer V)) /\
  (forall V es is contracts id,
     guarded_int (Nsq.ReqFutuDepthMarketDataSubscribe_m V es is contracts id)
       nsq_null nsq_live
       (fun a => Nsq.ReqFutuDepthMarketDataSubscribe a (map (nsq_req_of es is) contracts)
                   (int_of_size (length contracts)) id)
       (Nsq.answer V)) /\
  (forall V es is exchange_id id,
     guarded_int (Nsq.SubscribeMarket_m V es is exchange_id id) nsq_null nsq_live
       (fun a => Nsq.ReqFutuDepthMarketDataSubscribe a
                   [Nsq.CHSNsqReqFutuDepthMarketDataField.mk
                      (copy_cstr (repeat NUL es) es exchange_id) (repeat NUL is)] 0 id)
       (Nsq.answer V)) /\
  (forall V err,
     (forall tr, Nsq.GetApiErrorMsg_m V err (nsq_null, tr) = (EmptyString, (nsq_null, tr))) /\
     (forall a tr, Nsq.GetApiErrorMsg_m V err (nsq_live a, tr) =
        (match Nsq.message V tr (Nsq.GetApiErrorMsg a err) with
         | Some m => m | None => EmptyString end,
         (nsq_live a, tr ++ [Nsq.GetApiErrorMsg a err])))).
Proof.
  repeat match goal with |- _ /\ _ => split end; intros;
    try (split; intros; reflexivity).
  - split; intros; [reflexivity|]. apply ctp_subscribe_live.
  - split; intros; [reflexivity|]. apply nsq_subscribe_live.
  - split; intros; [reflexivity|].
    cbn -[copy_cstr repeat]. rewrite repeat_length. reflexivity.
Qed.

(** ** Claim C4: subscription requests *)

Definition many_symbols : list string := repeat "IF2406" (Z.to_nat (2 ^ 31)).

(** [C4] (counterexample): with 2^31 symbols the count handed to
    [SubscribeMarketData] is the list length converted to [int], -2^31, not
    the length. *)
Lemma C4_count_wraps_counterexample :
  snd (snd (Ctp.SubscribeMarketData_m ctp_vendor0 many_symbols (md_live 1%positive, []))) =
    [Ctp.SubscribeMarketData 1%positive many_symbols (- 2 ^ 31)%Z] /\
  (- 2 ^ 31 <> Z.of_nat (length many_symbols))%Z.
Proof.
  rewrite ctp_subscribe_live. unfold many_symbols. rewrite repeat_length.
  rewrite int_of_size_2_31, Z2Nat.id by lia. split; [reflexivity | lia].
Qed.

(** [C4] (amended): [SubscribeMarketData] hands the vendor one C string per
    symbol, the symbols themselves in order, and
    [ReqFutuDepthMarketDataSubscribe] one request record per (exchange,
    instrument) pair, in order, with [copy_cstr] of the first component in
    [ExchangeID] and of the second in [InstrumentID]; the count is the
    list's length converted to the vendor's [int], which is the length
    itself for every list of fewer than 2^31 entries. *)
Theorem C4_subscribe_entries_amended :
  (forall V a tr symbols,
     snd (snd (Ctp.SubscribeMarketData_m V symbols (md_live a, tr))) =
     tr ++ [Ctp.SubscribeMarketData a symbols (int_of_size (length symbols))]) /\
  (forall V es is a tr contracts id,
     snd (snd (Nsq.ReqFutuDepthMarketDataSubscribe_m V es is contracts id (nsq_live a, tr))) =
     tr ++ [Nsq.ReqFutuDepthMarketDataSubscribe a (map (nsq_req_of es is) contracts)
              (int_of_size (length contracts)) id] /\
    length (map (nsq_req_of es is) contracts) = length contracts /\
    (forall i ex inst, nth_error contracts i = Some (ex, inst) ->
        nth_error (map (nsq_req_of es is) contracts) i =
        Some (Nsq.CHSNsqReqFutuDepthMarketDataField.mk
                (copy_cstr (repeat NUL es) es ex) (copy_cstr (repeat NUL is) is inst)))) /\
  (forall n, (Z.of_nat n < 2 ^ 31)%Z -> int_of_size n = Z.of_nat n).
Proof.
  split; [|split].
  - intros. now rewrite ctp_subscribe_live.
  - intros V es is a tr contracts id. rewrite nsq_subscribe_live.
    split; [reflexivity|]. split; [apply length_map|].
    intros i ex inst H. rewrite nth_error_map, H. reflexivity.
  - exact int_of_size_small.
Qed.

Lemma C4_subscribe_entries_amended_witness :
  int_of_size (length ["IF2406"; "IC2406"]) = 2%Z /\
  snd (snd (Ctp.SubscribeMarketData_m ctp_vendor0 ["IF2406"; "IC2406"] (md_live 1%positive, []))) =
    [Ctp.SubscribeMarketData 1%positive ["IF2406"; "IC2406"] (int_of_size 2)].
Proof.
  destruct C4_subscribe_entries_amended as [Hc [_ Hn]]. split.
  - apply Hn. simpl. lia.
  - apply (Hc ctp_vendor0 1%positive [] ["IF2406"; "IC2406"]).
Defined.

(** ** Claim C9: session creation *)

(** [C9]: [PyMdApi]'s constructor calls [CreateFtdcMdApi(flow_path)];
    [PyNsqApi]'s calls [NewNsqApi(flow_path)] when [sdk_cfg_file_path] is
    empty and [NewNsqApiExt(flow_path, sdk_cfg_file_path)] otherwise; in
    each case that is the only vendor call and the object keeps the handle
    the factory returns. *)
Theorem C9_session_creation :
  (forall V flow_path st,
     Ctp.ctor V flow_path st =
     (tt, ({| Ctp.api := Ctp.create V (snd st) (Ctp.CreateFtdcMdApi flow_path) |},
           snd st ++ [Ctp.CreateFtdcMdApi flow_path]))) /\
  (forall V flow_path st,
     Nsq.ctor V flow_path EmptyString st =
     (tt, ({| Nsq.api_ := Nsq.create V (snd st) (Nsq.NewNsqApi flow_path) |},
           snd st ++ [Nsq.NewNsqApi flow_path]))) /\
  (forall V flow_path sdk_cfg_file_path st,
     sdk_cfg_file_path <> EmptyString ->
     Nsq.ctor V flow_path sdk_cfg_file_path st =
     (tt, ({| Nsq.api_ := Nsq.create V (snd st) (Nsq.NewNsqApiExt flow_path sdk_cfg_file_path) |},
           snd st ++ [Nsq.NewNsqApiExt flow_path sdk_cfg_file_path]))).
Proof.
  split; [|split].
  - intros V flow_path [s tr]. reflexivity.
  - intros V flow_path [s tr]. reflexivity.
  - intros V flow_path cfg [s tr] H. unfold Nsq.ctor.
    apply String.eqb_neq in H. cbn. rewrite H. reflexivity.
Qed.

Lemma C9_session_creation_witness :
  Nsq.ctor nsq_vendor0 "./log/" "sdk.cfg" (nsq_null, []) =
  (tt, (nsq_live 1%positive, [Nsq.NewNsqApiExt "./log/" "sdk.cfg"])).
Proof.
  destruct C9_session_creation as [_ [_ H]].
  apply (H nsq_vendor0 "./log/" "sdk.cfg" (nsq_null, [])). discriminate.
Defined.

(** ** Claim C5: callback trampolines *)

(** [C5]: every virtual that [PyMdSpi] and [PyNsqSpi] override calls the
    Python callback object's attribute of the same name with the vendor's
    arguments, unchanged and in order, when that attribute is a Python
    function, and otherwise runs the vendor base-class method on the same
    call. *)
Theorem C5_callbacks_forwarded :
  (forall self c,
     MdSpi.PyMdSpi self c =
     match Trampoline.get_override self (SpiInterface.md_name c) with
     | Some f => Trampoline.CallPython f (SpiInterface.md_args c)
     | None => Trampoline.CallBase c
     end) /\
  (forall self c,
     NsqSpi.PyNsqSpi self c =
     match Trampoline.get_override self (SpiInterface.nsq_name c) with
     | Some f => Trampoline.CallPython f (SpiInterface.nsq_args c)
     | None => Trampoline.CallBase c
     end).
Proof. split; intros self []; reflexivity. Qed.

(** ** Claims C6 and C7: the ExaNIC bindings *)

Lemma IsValid_world o name w :
  Exanic.PyCapsule_IsValid o name w = (fst (Exanic.PyCapsule_IsValid o name w), w).
Proof. reflexivity. Qed.



(** [receive_frame] on a valid RX capsule, step by step *)
Lemma receive_frame_valid V w id p max_size :
  Exanic.heap w id =
    Some {| Exanic.cap_pointer := Some p; Exanic.cap_name := Some Exanic.CAPSULE_EXANIC_RX |} ->
  Exanic.receive_frame V (Exanic.PyCapsuleObj id) max_size w =
  Exanic.ebind (Exanic.string_fill (Exanic.v_alloc V)
                  (if (max_size =? 0)%N then 2048%N else max_size) NUL)
    (fun buf =>
       Exanic.ebind
         (Exanic.ecall (Exanic.v_receive V)
            (Exanic.exanic_receive_frame (Some p)
               (if (max_size =? 0)%N then 2048%N else max_size)))
         (fun res =>
            if (fst res <=? 0)%Z then Exanic.eret EmptyString
            else fun w => (Exanic.bytes_of_buffer (Exanic.write_frame buf (snd res))
                             (Z.to_nat (fst res)), w))) w.
Proof.
  intros H. unfold Exanic.receive_frame, Exanic.ebind at 1, Exanic.PyCapsule_IsValid.
  cbn [Exanic.lookup_capsule]. rewrite H. cbn [Exanic.cap_pointer Exanic.cap_name].
  unfold Exanic.name_matches. rewrite String.eqb_refl. cbn [negb].
  unfold Exanic.ebind at 1, Exanic.PyCapsule_GetPointer. cbn [Exanic.lookup_capsule].
  rewrite H. cbn [Exanic.cap_pointer Exanic.cap_name].
  unfold Exanic.name_matches. rewrite String.eqb_refl.
  reflexivity.
Qed.

(** a world holding one RX capsule, id 0, around vendor pointer 7 *)
Definition exanic_world_rx : Exanic.world :=
  Exanic.mk_world
    (Exanic.upd_heap (fun _ => None) 0
       {| Exanic.cap_pointer := Some 7%positive; Exanic.cap_name := Some Exanic.CAPSULE_EXANIC_RX |})
    1 None [].




(** [C7]: a capsule that is not a valid capsule of the expected name makes
    [acquire_rx_buffer] and [receive_frame] raise a RuntimeError and the
    release functions return [None], each without calling the vendor or
    changing anything; [acquire_handle] and [acquire_rx_buffer] (on a valid
    handle capsule, whose pointer they pass on) return [None] exactly when
    the vendor returns a null pointer, and otherwise a fresh capsule named
    "exanic_t" or "exanic_rx_t" holding the vendor's pointer. *)
Theorem C7_capsule_checks :
  (forall V o port buffer w,
     fst (Exanic.PyCapsule_IsValid o Exanic.CAPSULE_EXANIC w) = Exanic.Ok false ->
     Exanic.acquire_rx_buffer V o port buffer w =
     (Exanic.Raise (Exanic.RuntimeError "invalid exanic handle capsule"), w)) /\
  (forall V o max_size w,
     fst (Exanic.PyCapsule_IsValid o Exanic.CAPSULE_EXANIC_RX w) = Exanic.Ok false ->
     Exanic.receive_frame V o max_size w =
     (Exanic.Raise (Exanic.RuntimeError "invalid exanic_rx handle capsule"), w)) /\
  (forall o w,
     fst (Exanic.PyCapsule_IsValid o Exanic.CAPSULE_EXANIC_RX w) = Exanic.Ok false ->
     Exanic.release_rx_buffer o w = (Exanic.Ok tt, w)) /\
  (forall o w,
     fst (Exanic.PyCapsule_IsValid o Exanic.CAPSULE_EXANIC w) = Exanic.Ok false ->
     Exanic.release_handle o w = (Exanic.Ok tt, w)) /\
  (forall V device_name w,
     let x := Exanic.exanic_acquire_handle device_name in
     let r := Exanic.acquire_handle V device_name w in
     Exanic.trace (snd r) = Exanic.trace w ++ [x] /\
     (fst r = Exanic.Ok Exanic.PyNoneObj <-> Exanic.v_acquire V (Exanic.trace w) x = None) /\
     (forall p, Exanic.v_acquire V (Exanic.trace w) x = Some p ->
        fst r = Exanic.Ok (Exanic.PyCapsuleObj (Exanic.next_id w)) /\
        Exanic.heap (snd r) (Exanic.next_id w) =
          Some {| Exanic.cap_pointer := Some p; Exanic.cap_name := Some Exanic.CAPSULE_EXANIC |})) /\
  (forall V id q port buffer w,
     Exanic.heap w id =
       Some {| Exanic.cap_pointer := Some q; Exanic.cap_name := Some Exanic.CAPSULE_EXANIC |} ->
     let x := Exanic.exanic_acquire_rx_buffer (Some q) port buffer in
     let r := Exanic.acquire_rx_buffer V (Exanic.PyCapsuleObj id) port buffer w in
     Exanic.trace (snd r) = Exanic.trace w ++ [x] /\
     (fst r = Exanic.Ok Exanic.PyNoneObj <-> Exanic.v_acquire V (Exanic.trace w) x = None) /\
     (forall p, Exanic.v_acquire V (Exanic.trace w) x = Some p ->
        fst r = Exanic.Ok (Exanic.PyCapsuleObj (Exanic.next_id w)) /\
        Exanic.heap (snd r) (Exanic.next_id w) =
          Some {| Exanic.cap_pointer := Some p; Exanic.cap_name := Some Exanic.CAPSULE_EXANIC_RX |})).
Proof.
  split; [|split; [|split; [|split; [|split]]]].
  - intros V o port buffer w H. unfold Exanic.acquire_rx_buffer, Exanic.ebind at 1.
    rewrite IsValid_world, H. reflexivity.
  - intros V o max_size w H. unfold Exanic.receive_frame, Exanic.ebind at 1.
    rewrite IsValid_world, H. reflexivity.
  - intros o w H. unfold Exanic.release_rx_buffer, Exanic.ebind at 1.
    rewrite IsValid_world, H. reflexivity.
  - intros o w H. unfold Exanic.release_handle, Exanic.ebind at 1.
    rewrite IsValid_world, H. reflexivity.
  - intros V device_name w x r. unfold r, Exanic.acquire_handle, Exanic.ebind, Exanic.ecall.
    fold x. cbn [fst snd Exanic.trace Exanic.mk_world].
    destruct (Exanic.v_acquire V (Exanic.trace w) x) as [p|] eqn:E.
    + cbn. split; [reflexivity|]. split; [split; discriminate|].
      intros p' Hp. injection Hp as <-. split; [reflexivity|].
      unfold Exanic.upd_heap. rewrite Nat.eqb_refl. reflexivity.
    + cbn. split; [reflexivity|]. split; [split; reflexivity | discriminate].
  - intros V id q port buffer w H. cbv zeta.
    unfold Exanic.acquire_rx_buffer, Exanic.ebind, Exanic.PyCapsule_IsValid,
      Exanic.PyCapsule_GetPointer, Exanic.ecall.
    unfold Exanic.name_matches.
    do 3 (cbn; rewrite ?H).
    destruct (Exanic.v_acquire V (Exanic.trace w)
                (Exanic.exanic_acquire_rx_buffer (Some q) port buffer)) as [p|] eqn:E.
    + cbn. split; [reflexivity|]. split; [split; discriminate|].
      intros p' Hp. injection Hp as <-. split; [reflexivity|].
      unfold Exanic.upd_heap. rewrite Nat.eqb_refl. reflexivity.
    + cbn. split; [reflexivity|]. split; [split; reflexivity | discriminate].
Qed.

Lemma C7_capsule_checks_witness :
  Exanic.receive_frame exanic_vendor0 (Exanic.PyCapsuleObj 5) 0 exanic_world_rx =
    (Exanic.Raise (Exanic.RuntimeError "invalid exanic_rx handle capsule"), exanic_world_rx) /\
  Exanic.release_handle (Exanic.PyCapsuleObj 0) exanic_world_rx = (Exanic.Ok tt, exanic_world_rx) /\
  fst (Exanic.acquire_rx_buffer exanic_vendor0 (Exanic.PyCapsuleObj 0) 0 0 exanic_world_rx) =
    Exanic.Raise (Exanic.RuntimeError "invalid exanic handle capsule").
Proof.
  destruct C7_capsule_checks as [Ha [Hr [_ [Hh _]]]].
  split; [|split].
  - apply Hr. vm_compute. reflexivity.
  - apply Hh. vm_compute. reflexivity.
  - rewrite Ha; [reflexivity | vm_compute; reflexivity].
Defined.

(** ** Claims C8 and C10: record accessors *)

(** every property bound on a record reads the field of that name: the
    getter's value is the Python value of the field's current contents, and
    the record comes back as it was *)
Definition accessors_read_fields {T} (bs : list (binding T))
    (fields : T -> list (string * cval)) (f : T) : Prop :=
  forall name, In name (map fst bs) ->
    exists v, assoc name (fields f) = Some v /\ py_getattr bs f name = Some (f, to_py v).

Lemma string_of_cchars_prefix a :
  In NUL a -> string_of_cchars a = Some (string_of_list_ascii (prefix_nul a)).
Proof.
  induction a as [|c a IH]; intros H; [destruct H|].
  cbn [string_of_cchars prefix_nul].
  destruct (Ascii.eqb_spec c NUL) as [->|Hc]; [reflexivity|].
  destruct H as [->|H]; [congruence|]. rewrite (IH H). reflexivity.
Qed.

Lemma skipn_nth_error {A} (l : list A) i x :
  nth_error l i = Some x -> skipn i l = x :: skipn (S i) l.
Proof.
  revert i. induction l as [|y l IH]; intros [|i] H; cbn in *; try discriminate.
  - injection H as ->. reflexivity.
  - now apply IH.
Qed.

(** the loop of the depth accessors reads [k] entries from index [i] *)
Lemma push_levels_spec {E} (conv : E -> double) arr i k v :
  i + k <= length arr ->
  push_levels conv arr i k v = Some (v ++ map conv (firstn k (skipn i arr))).
Proof.
  revert i v. induction k as [|k IH]; intros i v H; cbn [push_levels].
  - now rewrite firstn_O, app_nil_r.
  - destruct (nth_error arr i) as [x|] eqn:Hx.
    + rewrite IH by lia. rewrite (skipn_nth_error arr i x Hx), <- app_assoc. reflexivity.
    + apply nth_error_None in Hx. lia.
Qed.

Ltac list5 l :=
  let H := fresh in
  match goal with Hl : length l = 5 |- _ => rename Hl into H end;
  destruct l as [|? [|? [|? [|? [|? [|? ?]]]]]]; cbn in H; try discriminate H; clear H.

(** [C8]: reading a property of a bound response, login or market-data
    record returns the current value of the vendor field of the same name
    (a char array up to its first NUL byte) and leaves the record as it
    was; for the NSQ depth record this holds when its four level arrays have
    the five entries the accessors read. *)
Theorem C8_accessors_read_fields :
  (forall a, In NUL a -> to_py (CChars a) = Some (PyStr (string_of_list_ascii (prefix_nul a)))) /\
  (forall f, accessors_read_fields CThostFtdcRspInfoField.bindings
               CThostFtdcRspInfoField.fields f) /\
  (forall f, accessors_read_fields CThostFtdcRspUserLoginField.bindings
               CThostFtdcRspUserLoginField.fields f) /\
  (forall f, accessors_read_fields CThostFtdcDepthMarketDataField.bindings
               CThostFtdcDepthMarketDataField.fields f) /\
  (forall f, accessors_read_fields CThostFtdcSpecificInstrumentField.bindings
               CThostFtdcSpecificInstrumentField.fields f) /\
  (forall f, accessors_read_fields CHSNsqRspInfoField.bindings CHSNsqRspInfoField.fields f) /\
  (forall f, accessors_read_fields CHSNsqRspUserLoginField.bindings
               CHSNsqRspUserLoginField.fields f) /\
  (forall HSQty (qty_py : HSQty -> pyval) (qty_to_double : HSQty -> double)
          (f : CHSNsqFutuDepthMarketDataField.t HSQty),
     length (CHSNsqFutuDepthMarketDataField.BidPrice f) = 5 ->
     length (CHSNsqFutuDepthMarketDataField.BidVolume f) = 5 ->
     length (CHSNsqFutuDepthMarketDataField.AskPrice f) = 5 ->
     length (CHSNsqFutuDepthMarketDataField.AskVolume f) = 5 ->
     accessors_read_fields (CHSNsqFutuDepthMarketDataField.bindings qty_py qty_to_double)
       (CHSNsqFutuDepthMarketDataField.fields qty_py qty_to_double) f).
Proof.
  split; [intros a H; cbn [to_py]; now rewrite string_of_cchars_prefix|].
  repeat match goal with |- _ /\ _ => split end;
    try (intros f name H; cbn in H;
         repeat (destruct H as [<- | H]; [eexists; split; reflexivity |]);
         contradiction).
  intros HSQty qty_py qty_to_double [] HBP HBV HAP HAV; cbn in HBP, HBV, HAP, HAV.
  list5 BidPrice. list5 BidVolume. list5 AskPrice. list5 AskVolume.
  intros name H; cbn in H.
  repeat (destruct H as [<- | H]; [eexists; split; reflexivity |]). contradiction.
Qed.

Definition nsq_depth0 : CHSNsqFutuDepthMarketDataField.t Z :=
  {| CHSNsqFutuDepthMarketDataField.TradingDay := 20240614;
     CHSNsqFutuDepthMarketDataField.InstrumentID := c_str "IF2406";
     CHSNsqFutuDepthMarketDataField.ExchangeID := c_str "CFFEX";
     CHSNsqFutuDepthMarketDataField.LastPrice := 1;
     CHSNsqFutuDepthMarketDataField.PreSettlementPrice := 2;
     CHSNsqFutuDepthMarketDataField.PreClosePrice := 3;
     CHSNsqFutuDepthMarketDataField.OpenPrice := 4;
     CHSNsqFutuDepthMarketDataField.HighestPrice := 5;
     CHSNsqFutuDepthMarketDataField.LowestPrice := 6;
     CHSNsqFutuDepthMarketDataField.TradeVolume := 100;
     CHSNsqFutuDepthMarketDataField.OpenInterest := 200;
     CHSNsqFutuDepthMarketDataField.UpdateTime := 93000000;
     CHSNsqFutuDepthMarketDataField.ActionDay := 20240614;
     CHSNsqFutuDepthMarketDataField.BidPrice := [10; 9; 8; 7; 6];
     CHSNsqFutuDepthMarketDataField.BidVolume := [1; 2; 3; 4; 5];
     CHSNsqFutuDepthMarketDataField.AskPrice := [11; 12; 13; 14; 15; 16];
     CHSNsqFutuDepthMarketDataField.AskVolume := [5; 4; 3; 2; 1; 0] |}%Z.

Lemma C8_accessors_read_fields_witness :
  accessors_read_fields (CHSNsqFutuDepthMarketDataField.bindings PyInt (fun z => z))
    (CHSNsqFutuDepthMarketDataField.fields PyInt (fun z => z))
    {| CHSNsqFutuDepthMarketDataField.TradingDay := 20240614;
       CHSNsqFutuDepthMarketDataField.InstrumentID := c_str "IF2406";
       CHSNsqFutuDepthMarketDataField.ExchangeID := c_str "CFFEX";
       CHSNsqFutuDepthMarketDataField.LastPrice := 1;
       CHSNsqFutuDepthMarketDataField.PreSettlementPrice := 2;
       CHSNsqFutuDepthMarketDataField.PreClosePrice := 3;
       CHSNsqFutuDepthMarketDataField.OpenPrice := 4;
       CHSNsqFutuDepthMarketDataField.HighestPrice := 5;
       CHSNsqFutuDepthMarketDataField.LowestPrice := 6;
       CHSNsqFutuDepthMarketDataField.TradeVolume := 100;
       CHSNsqFutuDepthMarketDataField.OpenInterest := 200;
       CHSNsqFutuDepthMarketDataField.UpdateTime := 93000000;
       CHSNsqFutuDepthMarketDataField.ActionDay := 20240614;
       CHSNsqFutuDepthMarketDataField.BidPrice := [10; 9; 8; 7; 6];
       CHSNsqFutuDepthMarketDataField.BidVolume := [1; 2; 3; 4; 5];
       CHSNsqFutuDepthMarketDataField.AskPrice := [11; 12; 13; 14; 15];
       CHSNsqFutuDepthMarketDataField.AskVolume := [5; 4; 3; 2; 1] |}%Z.
Proof.
  destruct C8_accessors_read_fields as [_ [_ [_ [_ [_ [_ [_ H]]]]]]].
  apply H; reflexivity.
Defined.

(** [C10]: on an NSQ depth record whose four level arrays have at least
    five entries, the [BidPrice], [BidVolume], [AskPrice] and [AskVolume]
    properties return a list of exactly five doubles, the first five entries
    of the array in order (volumes converted from [HSQty]). *)
Theorem C10_depth_levels :
  forall HSQty (qty_py : HSQty -> pyval) (qty_to_double : HSQty -> double)
         (f : CHSNsqFutuDepthMarketDataField.t HSQty),
    5 <= length (CHSNsqFutuDepthMarketDataField.BidPrice f) ->
    5 <= length (CHSNsqFutuDepthMarketDataField.BidVolume f) ->
    5 <= length (CHSNsqFutuDepthMarketDataField.AskPrice f) ->
    5 <= length (CHSNsqFutuDepthMarketDataField.AskVolume f) ->
    let bs := CHSNsqFutuDepthMarketDataField.bindings qty_py qty_to_double in
    let levels name arr :=
      py_getattr bs f name = Some (f, Some (PyFloatList arr)) /\ length arr = 5 in
    levels "BidPrice" (firstn 5 (CHSNsqFutuDepthMarketDataField.BidPrice f)) /\
    levels "BidVolume" (map qty_to_double (firstn 5 (CHSNsqFutuDepthMarketDataField.BidVolume f))) /\
    levels "AskPrice" (firstn 5 (CHSNsqFutuDepthMarketDataField.AskPrice f)) /\
    levels "AskVolume" (map qty_to_double (firstn 5 (CHSNsqFutuDepthMarketDataField.AskVolume f))).
Proof.
  intros HSQty qty_py qty_to_double f HBP HBV HAP HAV. cbv zeta.
  unfold py_getattr. cbn [find_binding CHSNsqFutuDepthMarketDataField.bindings fst].
  repeat split; cbn -[push_levels firstn];
    rewrite ?push_levels_spec by (cbn; lia); cbn [skipn app option_map];
    rewrite ?map_id, ?length_map, ?length_firstn; try reflexivity; lia.
Qed.

Lemma C10_depth_levels_witness :
  py_getattr (CHSNsqFutuDepthMarketDataField.bindings PyInt (fun z => z)) nsq_depth0 "AskVolume" =
  Some (nsq_depth0, Some (PyFloatList [5; 4; 3; 2; 1]%Z)).
Proof.
  destruct (C10_depth_levels Z PyInt (fun z => z) nsq_depth0) as [_ [_ [_ [H _]]]];
    try (cbn; lia).
  exact H.
Defined.

(** * Further properties of the bindings *)

(** ** Request-record setters *)

Lemma strncpy_n_length l n : length (strncpy_n l n) = n.
Proof.
  revert l. induction n as [|n IH]; intros [|c l]; cbn [strncpy_n length];
    [reflexivity | reflexivity | now rewrite repeat_length |].
  destruct (c =? NUL)%char; cbn [length]; [now rewrite repeat_length | now rewrite IH].
Qed.

(** a CTP setter overwrites the whole array *)
Lemma strncpy_whole_field d v :
  strncpy d (c_str v) (length d) = strncpy_n (c_str v) (length d).
Proof. unfold strncpy. now rewrite skipn_all, app_nil_r. Qed.

(** [copy_cstr] on a whole array does not depend on what it held *)
Lemma copy_cstr_fresh d v :
  copy_cstr d (length d) v = copy_cstr (repeat NUL (length d)) (length d) v.
Proof.
  destruct (length d) as [|k] eqn:E.
  - apply length_zero_iff_nil in E. subst d. reflexivity.
  - pose proof (copy_cstr_bytes d k v E) as H1.
    pose proof (copy_cstr_bytes (repeat NUL (S k)) k v (repeat_length NUL (S k))) as H2.
    cbv zeta in H1, H2. now rewrite H1, H2.
Qed.

Lemma copy_cstr_length d v : length (copy_cstr d (length d) v) = length d.
Proof.
  destruct (length d) as [|k] eqn:E.
  - apply length_zero_iff_nil in E. subst d. reflexivity.
  - rewrite <- E. apply (copy_cstr_setter_spec d v). lia.
Qed.

Lemma copy_cstr_overwrite d v1 v2 :
  copy_cstr (copy_cstr d (length d) v1) (length (copy_cstr d (length d) v1)) v2 =
  copy_cstr d (length d) v2.
Proof.
  rewrite (copy_cstr_fresh (copy_cstr d (length d) v1)), copy_cstr_length.
  symmetry. apply copy_cstr_fresh.
Qed.

(** [copy_cstr] of the empty string leaves a zeroed array zeroed *)
Lemma copy_cstr_empty n : copy_cstr (repeat NUL n) n EmptyString = repeat NUL n.
Proof.
  destruct n as [|k]; [reflexivity|].
  pose proof (copy_cstr_bytes (repeat NUL (S k)) k EmptyString (repeat_length NUL (S k))) as H.
  cbv zeta in H. rewrite H. change (cut_nul EmptyString) with EmptyString.
  cbn [list_ascii_of_string length]. rewrite firstn_nil, Nat.sub_0_r. reflexivity.
Qed.

(** ** Login-request setters *)

(** The NSQ login-request setters replace the whole array: setting a field
    twice is the same as setting it once to the second value (nothing of a
    longer first value is left behind), and what a setter stores depends
    only on the array's size and the value, not on what the array held. *)
Theorem nsq_login_setters_overwrite :
  (forall f v1 v2,
     CHSNsqReqUserLoginField.set_AccountID (CHSNsqReqUserLoginField.set_AccountID f v1) v2 =
     CHSNsqReqUserLoginField.set_AccountID f v2) /\
  (forall f v1 v2,
     CHSNsqReqUserLoginField.set_Password (CHSNsqReqUserLoginField.set_Password f v1) v2 =
     CHSNsqReqUserLoginField.set_Password f v2) /\
  (forall f g v,
     length (CHSNsqReqUserLoginField.AccountID f) = length (CHSNsqReqUserLoginField.AccountID g) ->
     CHSNsqReqUserLoginField.AccountID (CHSNsqReqUserLoginField.set_AccountID f v) =
     CHSNsqReqUserLoginField.AccountID (CHSNsqReqUserLoginField.set_AccountID g v)) /\
  (forall f g v,
     length (CHSNsqReqUserLoginField.Password f) = length (CHSNsqReqUserLoginField.Password g) ->
     CHSNsqReqUserLoginField.Password (CHSNsqReqUserLoginField.set_Password f v) =
     CHSNsqReqUserLoginField.Password (CHSNsqReqUserLoginField.set_Password g v)).
Proof.
  split; [|split; [|split]].
  - intros [a p] v1 v2. unfold CHSNsqReqUserLoginField.set_AccountID, CHSNsqReqUserLoginField.set_Password;
      cbn [CHSNsqReqUserLoginField.AccountID CHSNsqReqUserLoginField.Password] in *.
    now rewrite copy_cstr_overwrite.
  - intros [a p] v1 v2. unfold CHSNsqReqUserLoginField.set_AccountID, CHSNsqReqUserLoginField.set_Password;
      cbn [CHSNsqReqUserLoginField.AccountID CHSNsqReqUserLoginField.Password] in *.
    now rewrite copy_cstr_overwrite.
  - intros [a p] [a' p'] v H. unfold CHSNsqReqUserLoginField.set_AccountID, CHSNsqReqUserLoginField.set_Password;
      cbn [CHSNsqReqUserLoginField.AccountID CHSNsqReqUserLoginField.Password] in *.
    now rewrite copy_cstr_fresh, H, <- copy_cstr_fresh.
  - intros [a p] [a' p'] v H. unfold CHSNsqReqUserLoginField.set_AccountID, CHSNsqReqUserLoginField.set_Password;
      cbn [CHSNsqReqUserLoginField.AccountID CHSNsqReqUserLoginField.Password] in *.
    now rewrite copy_cstr_fresh, H, <- copy_cstr_fresh.
Qed.

Lemma nsq_login_setters_overwrite_witness :
  CHSNsqReqUserLoginField.AccountID
    (CHSNsqReqUserLoginField.set_AccountID
       (CHSNsqReqUserLoginField.mk (list_ascii_of_string "old-account") []) "ab") =
  CHSNsqReqUserLoginField.AccountID
    (CHSNsqReqUserLoginField.set_AccountID
       (CHSNsqReqUserLoginField.mk (repeat NUL 11) []) "ab").
Proof.
  destruct nsq_login_setters_overwrite as [_ [_ [H _]]].
  apply H. reflexivity.
Defined.

(** The CTP login-request setters write all [sizeof] bytes of their array:
    the array keeps its size for every value, and setting a field twice is
    the same as setting it once to the second value. *)
Theorem ctp_login_setters_overwrite :
  forall f v1 v2,
    length (CThostFtdcReqUserLoginField.BrokerID (CThostFtdcReqUserLoginField.set_BrokerID f v1)) =
      length (CThostFtdcReqUserLoginField.BrokerID f) /\
    length (CThostFtdcReqUserLoginField.UserID (CThostFtdcReqUserLoginField.set_UserID f v1)) =
      length (CThostFtdcReqUserLoginField.UserID f) /\
    length (CThostFtdcReqUserLoginField.Password (CThostFtdcReqUserLoginField.set_Password f v1)) =
      length (CThostFtdcReqUserLoginField.Password f) /\
    CThostFtdcReqUserLoginField.set_BrokerID (CThostFtdcReqUserLoginField.set_BrokerID f v1) v2 =
      CThostFtdcReqUserLoginField.set_BrokerID f v2 /\
    CThostFtdcReqUserLoginField.set_UserID (CThostFtdcReqUserLoginField.set_UserID f v1) v2 =
      CThostFtdcReqUserLoginField.set_UserID f v2 /\
    CThostFtdcReqUserLoginField.set_Password (CThostFtdcReqUserLoginField.set_Password f v1) v2 =
      CThostFtdcReqUserLoginField.set_Password f v2.
Proof.
  intros [t b u p] v1 v2.
  unfold CThostFtdcReqUserLoginField.set_BrokerID, CThostFtdcReqUserLoginField.set_UserID,
    CThostFtdcReqUserLoginField.set_Password.
  cbn [CThostFtdcReqUserLoginField.TradingDay CThostFtdcReqUserLoginField.BrokerID
       CThostFtdcReqUserLoginField.UserID CThostFtdcReqUserLoginField.Password].
  rewrite !strncpy_whole_field, !strncpy_n_length.
  repeat split.
Qed.

(** ** NSQ subscriptions *)

(** [SubscribeMarket(exchange_id, id)] sends the vendor the very record
    [ReqFutuDepthMarketDataSubscribe([(exchange_id, "")], id)] builds (its
    exchange copied with [copy_cstr], its instrument left all zero), but
    with count 0 where the latter passes 1. *)
Theorem nsq_subscribe_market_record :
  forall V es is a tr exchange_id id,
    let r := nsq_req_of es is (exchange_id, EmptyString) in
    Nsq.SubscribeMarket_m V es is exchange_id id (nsq_live a, tr) =
      (Nsq.answer V tr (Nsq.ReqFutuDepthMarketDataSubscribe a [r] 0 id),
       (nsq_live a, tr ++ [Nsq.ReqFutuDepthMarketDataSubscribe a [r] 0 id])) /\
    Nsq.ReqFutuDepthMarketDataSubscribe_m V es is [(exchange_id, EmptyString)] id (nsq_live a, tr) =
      (Nsq.answer V tr (Nsq.ReqFutuDepthMarketDataSubscribe a [r] 1 id),
       (nsq_live a, tr ++ [Nsq.ReqFutuDepthMarketDataSubscribe a [r] 1 id])).
Proof.
  intros V es is a tr exchange_id id r. split.
  - unfold r, nsq_req_of. cbn -[copy_cstr]. rewrite !repeat_length, copy_cstr_empty.
    reflexivity.
  - rewrite nsq_subscribe_live. reflexivity.
Qed.

(** An empty subscription list is not filtered out: [SubscribeMarketData([])]
    and [ReqFutuDepthMarketDataSubscribe([], id)] on a live handle still
    call the vendor, with no entries and count 0, and return its answer. *)
Theorem subscribe_empty_list :
  (forall V a tr,
     Ctp.SubscribeMarketData_m V [] (md_live a, tr) =
     (Ctp.answer V tr (Ctp.SubscribeMarketData a [] 0),
      (md_live a, tr ++ [Ctp.SubscribeMarketData a [] 0]))) /\
  (forall V es is a tr id,
     Nsq.ReqFutuDepthMarketDataSubscribe_m V es is [] id (nsq_live a, tr) =
     (Nsq.answer V tr (Nsq.ReqFutuDepthMarketDataSubscribe a [] 0 id),
      (nsq_live a, tr ++ [Nsq.ReqFutuDepthMarketDataSubscribe a [] 0 id]))).
Proof. split; intros; reflexivity. Qed.

(** the request records of one subscription, against their contracts *)
Definition req_reads (es is : nat) (r : Nsq.Req) (contract : string * string) : Prop :=
  let ex := Nsq.CHSNsqReqFutuDepthMarketDataField.ExchangeID r in
  let inst := Nsq.CHSNsqReqFutuDepthMarketDataField.InstrumentID r in
  string_of_cchars ex = Some (truncate (es - 1) (cut_nul (fst contract))) /\
  length ex = es /\ nul_terminated ex /\
  string_of_cchars inst = Some (truncate (is - 1) (cut_nul (snd contract))) /\
  length inst = is /\ nul_terminated inst.

(** Every record [ReqFutuDepthMarketDataSubscribe] hands the vendor holds
    two NUL-terminated arrays of their full size, which read back as the
    contract's exchange and instrument cut at their first NUL and truncated
    to one byte less than the array. *)
Theorem nsq_subscribe_records_terminated :
  forall V es is a tr contracts id,
    1 <= es -> 1 <= is ->
    exists reqs,
      snd (snd (Nsq.ReqFutuDepthMarketDataSubscribe_m V es is contracts id (nsq_live a, tr))) =
        tr ++ [Nsq.ReqFutuDepthMarketDataSubscribe a reqs (int_of_size (length contracts)) id] /\
      Forall2 (req_reads es is) reqs contracts.
Proof.
  intros V es is a tr contracts id Hes His.
  exists (map (nsq_req_of es is) contracts). split.
  - now rewrite nsq_subscribe_live.
  - induction contracts as [|[ex inst] rest IH]; cbn [map]; constructor; [|exact IH].
    unfold req_reads, nsq_req_of. cbn [fst snd Nsq.CHSNsqReqFutuDepthMarketDataField.ExchangeID
                                      Nsq.CHSNsqReqFutuDepthMarketDataField.InstrumentID].
    destruct (copy_cstr_setter_spec (repeat NUL es) ex) as [E1 [L1 N1]];
      [rewrite repeat_length; exact Hes|].
    destruct (copy_cstr_setter_spec (repeat NUL is) inst) as [E2 [L2 N2]];
      [rewrite repeat_length; exact His|].
    rewrite repeat_length in E1, L1, N1, E2, L2, N2. repeat split; assumption.
Qed.

Lemma nsq_subscribe_records_terminated_witness :
  exists reqs,
    snd (snd (Nsq.ReqFutuDepthMarketDataSubscribe_m nsq_vendor0 9 31
                [("CFFEX", "IF2406")] 1 (nsq_live 1%positive, []))) =
      [Nsq.ReqFutuDepthMarketDataSubscribe 1%positive reqs (int_of_size 1) 1] /\
    Forall2 (req_reads 9 31) reqs [("CFFEX", "IF2406")].
Proof.
  apply (nsq_subscribe_records_terminated nsq_vendor0 9 31 1%positive []
           [("CFFEX", "IF2406")] 1); lia.
Defined.

(** ** ExaNIC bindings *)

Lemma release_handle_valid w id p :
  Exanic.heap w id =
    Some {| Exanic.cap_pointer := Some p; Exanic.cap_name := Some Exanic.CAPSULE_EXANIC |} ->
  Exanic.py_invoke (Exanic.release_handle (Exanic.PyCapsuleObj id)) w =
  (Exanic.Raise Exanic.SystemError,
   Exanic.mk_world (Exanic.heap w) (Exanic.next_id w) None
     (Exanic.trace w ++ [Exanic.exanic_release_handle (Some p)])).
Proof.
  intros H.
  unfold Exanic.py_invoke, Exanic.release_handle, Exanic.ebind, Exanic.PyCapsule_IsValid,
    Exanic.PyCapsule_GetPointer, Exanic.ecall, Exanic.PyCapsule_SetPointer.
  do 3 (cbn; rewrite ?H). reflexivity.
Qed.

Lemma release_rx_valid w id p :
  Exanic.heap w id =
    Some {| Exanic.cap_pointer := Some p; Exanic.cap_name := Some Exanic.CAPSULE_EXANIC_RX |} ->
  Exanic.py_invoke (Exanic.release_rx_buffer (Exanic.PyCapsuleObj id)) w =
  (Exanic.Raise Exanic.SystemError,
   Exanic.mk_world (Exanic.heap w) (Exanic.next_id w) None
     (Exanic.trace w ++ [Exanic.exanic_release_rx_buffer (Some p)])).
Proof.
  intros H.
  unfold Exanic.py_invoke, Exanic.release_rx_buffer, Exanic.ebind, Exanic.PyCapsule_IsValid,
    Exanic.PyCapsule_GetPointer, Exanic.ecall, Exanic.PyCapsule_SetPointer.
  do 3 (cbn; rewrite ?H). reflexivity.
Qed.


Lemma receive_frame_valid_world V w id p max_size :
  Exanic.heap w id =
    Some {| Exanic.cap_pointer := Some p; Exanic.cap_name := Some Exanic.CAPSULE_EXANIC_RX |} ->
  ((if (max_size =? 0)%N then 2048%N else max_size) <= Exanic.string_max_size)%N ->
  Exanic.v_alloc V (Exanic.trace w) ((if (max_size =? 0)%N then 2048%N else max_size) + 1) = true ->
  snd (Exanic.receive_frame V (Exanic.PyCapsuleObj id) max_size w) =
  Exanic.mk_world (Exanic.heap w) (Exanic.next_id w) (Exanic.py_err w)
    (Exanic.trace w ++
     [Exanic.exanic_receive_frame (Some p) (if (max_size =? 0)%N then 2048%N else max_size)]).
Proof.
  intros H Hsize Ha. rewrite (receive_frame_valid V w id p max_size H).
  set (size := if (max_size =? 0)%N then 2048%N else max_size) in *.
  unfold Exanic.string_fill.
  destruct (N.ltb_spec Exanic.string_max_size size) as [Hlt|_]; [lia|].
  cbv beta iota zeta delta [Exanic.ebind Exanic.eret Exanic.ecall].
  rewrite Ha. cbv beta iota zeta.
  destruct (Exanic.v_receive V (Exanic.trace w) (Exanic.exanic_receive_frame (Some p) size))
    as [n frame].
  cbn [fst]. destruct (n <=? 0)%Z; reflexivity.
Qed.


(** [k] successive calls of the same binding from Python, collecting the
    results. *)
Fixpoint repeat_call {A} (k : nat) (m : Exanic.EM A) (w : Exanic.world)
  : list (Exanic.outcome A) * Exanic.world :=
  match k with
  | O => ([], w)
  | S k' =>
      let (r, w1) := m w in
      let (rs, w2) := repeat_call k' m w1 in
      (r :: rs, w2)
  end.

Definition exanic_world_handle : Exanic.world :=
  Exanic.mk_world
    (Exanic.upd_heap (fun _ => None) 0
       {| Exanic.cap_pointer := Some 7%positive; Exanic.cap_name := Some Exanic.CAPSULE_EXANIC |})
    1 None [].

(** [receive_frame] touches no capsule, allocates none and leaves the
    Python error indicator as it found it; it makes at most one vendor call,
    and that call is [exanic_receive_frame]. *)
Theorem exanic_receive_frame_frame V o max_size w :
  let w' := snd (Exanic.receive_frame V o max_size w) in
  Exanic.heap w' = Exanic.heap w /\ Exanic.next_id w' = Exanic.next_id w /\
  Exanic.py_err w' = Exanic.py_err w /\
  (Exanic.trace w' = Exanic.trace w \/
   exists rx size, Exanic.trace w' = Exanic.trace w ++ [Exanic.exanic_receive_frame rx size]).
Proof.
  cbv zeta.
  unfold Exanic.receive_frame.
  cbv beta iota zeta delta [Exanic.ebind Exanic.PyCapsule_IsValid Exanic.PyCapsule_GetPointer].
  cbn -[Exanic.string_fill Exanic.lookup_capsule Exanic.name_matches].
  destruct (Exanic.lookup_capsule o w) as [[[p|] nm]|] eqn:L;
    cbn -[Exanic.string_fill Exanic.name_matches]; rewrite ?L;
    cbn -[Exanic.string_fill Exanic.name_matches].
  - destruct (Exanic.name_matches nm (Some Exanic.CAPSULE_EXANIC_RX)) eqn:Nm; cbn [negb].
    + unfold Exanic.string_fill.
      destruct (Exanic.string_max_size <? _)%N; cbn; rewrite ?L; cbn; rewrite ?Nm; cbn.
      * auto.
      * destruct (Exanic.v_alloc V _ _); cbn; [|auto].
        destruct (Exanic.v_receive V (Exanic.trace w) _) as [n fr]. cbn.
        destruct (n <=? 0)%Z; cbn; eauto 10.
    + cbn. auto.
  - cbn. auto.
  - cbn. auto.
Qed.

(** Releasing never invalidates a capsule: calling [release_handle] (or
    [release_rx_buffer]) [k] times from Python on a valid capsule of its
    kind calls the vendor release [k] times with the same pointer, raises
    SystemError each time and leaves every capsule as it was. *)
Theorem exanic_release_repeated w id p k :
  (Exanic.heap w id =
     Some {| Exanic.cap_pointer := Some p; Exanic.cap_name := Some Exanic.CAPSULE_EXANIC |} ->
   let r := repeat_call k (Exanic.py_invoke (Exanic.release_handle (Exanic.PyCapsuleObj id))) w in
   fst r = repeat (Exanic.Raise Exanic.SystemError) k /\
   Exanic.heap (snd r) = Exanic.heap w /\
   Exanic.trace (snd r) = Exanic.trace w ++ repeat (Exanic.exanic_release_handle (Some p)) k) /\
  (Exanic.heap w id =
     Some {| Exanic.cap_pointer := Some p; Exanic.cap_name := Some Exanic.CAPSULE_EXANIC_RX |} ->
   let r := repeat_call k (Exanic.py_invoke (Exanic.release_rx_buffer (Exanic.PyCapsuleObj id))) w in
   fst r = repeat (Exanic.Raise Exanic.SystemError) k /\
   Exanic.heap (snd r) = Exanic.heap w /\
   Exanic.trace (snd r) = Exanic.trace w ++ repeat (Exanic.exanic_release_rx_buffer (Some p)) k).
Proof.
  split; revert w; induction k as [|k IH]; intros w H; cbv zeta.
  - cbn. rewrite app_nil_r. auto.
  - cbn [repeat_call]. rewrite (release_handle_valid w id p H).
    destruct (IH (Exanic.mk_world (Exanic.heap w) (Exanic.next_id w) None
                   (Exanic.trace w ++ [Exanic.exanic_release_handle (Some p)]))) as [R [Hh T]];
      [exact H|].
    destruct (repeat_call k _ _) as [rs w2]. cbn [fst snd] in *.
    rewrite R, Hh, T. cbn. rewrite <- app_assoc. auto.
  - cbn. rewrite app_nil_r. auto.
  - cbn [repeat_call]. rewrite (release_rx_valid w id p H).
    destruct (IH (Exanic.mk_world (Exanic.heap w) (Exanic.next_id w) None
                   (Exanic.trace w ++ [Exanic.exanic_release_rx_buffer (Some p)]))) as [R [Hh T]];
      [exact H|].
    destruct (repeat_call k _ _) as [rs w2]. cbn [fst snd] in *.
    rewrite R, Hh, T. cbn. rewrite <- app_assoc. auto.
Qed.

Lemma exanic_release_repeated_witness :
  fst (repeat_call 2 (Exanic.py_invoke (Exanic.release_handle (Exanic.PyCapsuleObj 0)))
         exanic_world_handle) =
    [Exanic.Raise Exanic.SystemError; Exanic.Raise Exanic.SystemError] /\
  Exanic.trace (snd (repeat_call 3
    (Exanic.py_invoke (Exanic.release_rx_buffer (Exanic.PyCapsuleObj 0))) exanic_world_rx)) =
    repeat (Exanic.exanic_release_rx_buffer (Some 7%positive)) 3.
Proof.
  split.
  - destruct (exanic_release_repeated exanic_world_handle 0 7%positive 2) as [Hh _].
    destruct (Hh eq_refl) as [R _]. exact R.
  - destruct (exanic_release_repeated exanic_world_rx 0 7%positive 3) as [_ Hr].
    destruct (Hr eq_refl) as [_ [_ T]]. exact T.
Defined.

(** Use after release: after [release_rx_buffer] on a valid RX capsule,
    [receive_frame] on the same capsule still passes the validity check and
    calls [exanic_receive_frame] with the released pointer (whenever the
    receive buffer of the effective size can be built). *)
Theorem exanic_receive_after_release V w id p max_size :
  Exanic.heap w id =
    Some {| Exanic.cap_pointer := Some p; Exanic.cap_name := Some Exanic.CAPSULE_EXANIC_RX |} ->
  ((if (max_size =? 0)%N then 2048%N else max_size) <= Exanic.string_max_size)%N ->
  Exanic.v_alloc V (Exanic.trace w ++ [Exanic.exanic_release_rx_buffer (Some p)])
    ((if (max_size =? 0)%N then 2048%N else max_size) + 1) = true ->
  let w1 := snd (Exanic.py_invoke (Exanic.release_rx_buffer (Exanic.PyCapsuleObj id)) w) in
  Exanic.trace (snd (Exanic.receive_frame V (Exanic.PyCapsuleObj id) max_size w1)) =
  Exanic.trace w ++
    [Exanic.exanic_release_rx_buffer (Some p);
     Exanic.exanic_receive_frame (Some p) (if (max_size =? 0)%N then 2048%N else max_size)].
Proof.
  intros H Hsize Ha. cbv zeta. rewrite (release_rx_valid w id p H). cbn [snd].
  rewrite (receive_frame_valid_world V
             (Exanic.mk_world (Exanic.heap w) (Exanic.next_id w) None
                (Exanic.trace w ++ [Exanic.exanic_release_rx_buffer (Some p)]))
             id p max_size H Hsize Ha).
  cbn. rewrite <- app_assoc. reflexivity.
Qed.

Lemma exanic_receive_after_release_witness :
  Exanic.trace (snd (Exanic.receive_frame exanic_vendor0 (Exanic.PyCapsuleObj 0) 0
    (snd (Exanic.py_invoke (Exanic.release_rx_buffer (Exanic.PyCapsuleObj 0)) exanic_world_rx)))) =
  [Exanic.exanic_release_rx_buffer (Some 7%positive);
   Exanic.exanic_receive_frame (Some 7%positive) 2048].
Proof.
  exact (exanic_receive_after_release exanic_vendor0 exanic_world_rx 0 7%positive 0 eq_refl
           ltac:(vm_compute; discriminate) ltac:(vm_compute; reflexivity)).
Defined.

(** Acquiring leaves existing capsules alone: [acquire_handle] and
    [acquire_rx_buffer] (whatever object they are given) change no capsule
    other than the fresh slot [next_id], and allocate at most that one
    slot. *)
Theorem exanic_acquire_frame V :
  (forall device_name w id,
     id <> Exanic.next_id w ->
     let w' := snd (Exanic.acquire_handle V device_name w) in
     Exanic.heap w' id = Exanic.heap w id /\
     (Exanic.next_id w' = Exanic.next_id w \/ Exanic.next_id w' = S (Exanic.next_id w))) /\
  (forall o port buffer w id,
     id <> Exanic.next_id w ->
     let w' := snd (Exanic.acquire_rx_buffer V o port buffer w) in
     Exanic.heap w' id = Exanic.heap w id /\
     (Exanic.next_id w' = Exanic.next_id w \/ Exanic.next_id w' = S (Exanic.next_id w))).
Proof.
  split.
  - intros device_name w id Hid. cbv zeta.
    unfold Exanic.acquire_handle, Exanic.ebind, Exanic.ecall. cbn [fst snd].
    destruct (Exanic.v_acquire V _ _); cbn; [|auto].
    unfold Exanic.upd_heap. apply Nat.eqb_neq in Hid. rewrite Hid. auto.
  - intros o port buffer w id Hid. cbv zeta.
    unfold Exanic.acquire_rx_buffer.
    cbv beta iota zeta delta
      [Exanic.ebind Exanic.PyCapsule_IsValid Exanic.PyCapsule_GetPointer Exanic.ecall].
    cbn -[Exanic.lookup_capsule Exanic.name_matches Exanic.py_capsule].
    destruct (Exanic.lookup_capsule o w) as [[[q|] nm]|] eqn:L;
      cbn -[Exanic.name_matches Exanic.py_capsule]; rewrite ?L;
      cbn -[Exanic.name_matches Exanic.py_capsule]; auto.
    destruct (Exanic.name_matches nm (Some Exanic.CAPSULE_EXANIC)) eqn:Nm;
      cbn -[Exanic.py_capsule]; rewrite ?L; cbn -[Exanic.py_capsule]; rewrite ?Nm;
      cbn -[Exanic.py_capsule]; auto.
    destruct (Exanic.v_acquire V _ _); cbn; [|auto].
    unfold Exanic.upd_heap. apply Nat.eqb_neq in Hid. rewrite Hid. auto.
Qed.

Lemma exanic_acquire_frame_witness :
  Exanic.heap (snd (Exanic.acquire_rx_buffer exanic_vendor0 (Exanic.PyCapsuleObj 0) 0 0
                      exanic_world_handle)) 0 =
    Exanic.heap exanic_world_handle 0 /\
  Exanic.heap (snd (Exanic.acquire_handle exanic_vendor0 "exanic0" exanic_world_rx)) 0 =
    Exanic.heap exanic_world_rx 0.
Proof.
  destruct (exanic_acquire_frame exanic_vendor0) as [Ha Hr].
  split.
  - exact (proj1 (Hr (Exanic.PyCapsuleObj 0) 0%Z 0%Z exanic_world_handle 0 ltac:(vm_compute; lia))).
  - exact (proj1 (Ha "exanic0" exanic_world_rx 0 ltac:(vm_compute; lia))).
Defined.
